(** * Stock-request pipeline of the Telegram stock bot (stock_bot.py)

    A shallow embedding of [get_stock_data], [generate_chart],
    [get_perplexity_analysis], [format_stock_message] and [handle_stock],
    together with the properties of the pipeline.

    Python values are modelled as the code has them:
    - a [str] is a list of Unicode code points ([len] counts code points);
    - a [dict] with string keys is a [gmap string _];
    - a [float] is an IEEE-754 binary64 number ([spec_float]);
    - a raised exception is a value of [exn]; fallible code returns [result];
    - the external collaborators (market-data provider, plotting library,
      HTTP endpoint, chat transport) are variables of the section. *)

From Stdlib Require Import ZArith NArith List String Ascii Bool Lia.
From Stdlib Require Import DecimalPos DecimalN.
From Stdlib Require Import Floats.SpecFloat.
From stdpp Require Import base option list gmap strings.

Local Open Scope nat_scope.
Set Warnings "-register-all".

(** ** Python strings *)

Module PyStr.

(** A Python [str]: the sequence of its code points. *)
Definition pystr := list N.

(** An ASCII literal of the source, as a Python string. *)
Definition lit (s : string) : pystr :=
  map N_of_ascii (list_ascii_of_string s).

(** [len(s)] *)
Definition len (s : pystr) : nat := length s.

(** [s.endswith(suf)] *)
Definition endswith (s suf : pystr) : bool :=
  (length suf <=? length s) && bool_decide (drop (length s - length suf) s = suf).

(** [s.startswith(p)] *)
Fixpoint startswith (s p : pystr) {struct p} : bool :=
  match p, s with
  | [], _ => true
  | _ :: _, [] => false
  | c :: p', d :: s' => (c =? d)%N && startswith s' p'
  end.

(** [sub in s] on strings: [sub] occurs as a contiguous slice of [s]. *)
Fixpoint contains (s sub : pystr) : bool :=
  startswith s sub ||
  match s with
  | [] => false
  | _ :: s' => contains s' sub
  end.

(** Number of positions of [s] at which [sub] starts. *)
Fixpoint occurrences (s sub : pystr) : nat :=
  (if startswith s sub then 1 else 0) +
  match s with
  | [] => 0
  | _ :: s' => occurrences s' sub
  end.

(** [s.replace(old, new)] for a non-empty [old]: the leftmost
    non-overlapping occurrences are replaced, scanning left to right.
    [skip] counts the characters of a matched occurrence still to drop. *)
Fixpoint replace_from (old new : pystr) (skip : nat) (s : pystr) : pystr :=
  match s with
  | [] => []
  | c :: s' =>
      match skip with
      | S k => replace_from old new k s'
      | O =>
          if startswith s old
          then new ++ replace_from old new (length old - 1) s'
          else c :: replace_from old new 0 s'
      end
  end.

Definition replace (s old new : pystr) : pystr := replace_from old new 0 s.

(** [s[:n]] *)
Definition slice_to (n : nat) (s : pystr) : pystr := take n s.

(** The character of a decimal digit. *)
Definition digit (d : N) : N := (48 + d)%N.

(** The characters of a decimal numeral, most significant digit first. *)
Fixpoint chars_of_uint (u : Decimal.uint) : pystr :=
  match u with
  | Decimal.Nil => []
  | Decimal.D0 u' => digit 0 :: chars_of_uint u'
  | Decimal.D1 u' => digit 1 :: chars_of_uint u'
  | Decimal.D2 u' => digit 2 :: chars_of_uint u'
  | Decimal.D3 u' => digit 3 :: chars_of_uint u'
  | Decimal.D4 u' => digit 4 :: chars_of_uint u'
  | Decimal.D5 u' => digit 5 :: chars_of_uint u'
  | Decimal.D6 u' => digit 6 :: chars_of_uint u'
  | Decimal.D7 u' => digit 7 :: chars_of_uint u'
  | Decimal.D8 u' => digit 8 :: chars_of_uint u'
  | Decimal.D9 u' => digit 9 :: chars_of_uint u'
  end.

(** [str(n)] for [n >= 0]: the decimal numeral of [n]. *)
Definition str_of_N (n : N) : pystr := chars_of_uint (N.to_uint n).

(** [str(z)] for a Python [int]. *)
Definition str_of_Z (z : Z) : pystr :=
  match z with
  | Zneg p => 45%N :: str_of_N (Npos p)
  | _ => str_of_N (Z.to_N z)
  end.

End PyStr.

Import PyStr.

(** ** Exceptions and fallible computations *)

(** The exception classes the program distinguishes in its handlers, and
    those the interpreter raises in the modelled code.  Every value of
    [exn] is an instance of Python's [Exception]. *)
Inductive exn_class :=
  | Timeout               (* requests.exceptions.Timeout *)
  | RequestException      (* any other requests.exceptions.RequestException *)
  | ValueError
  | TypeError
  | KeyError
  | IndexError
  | AttributeError
  | OverflowError
  | ZeroDivisionError
  | UnboundLocalError
  | PlainException.       (* Exception(...) and every other subclass *)

(** An exception instance: its class and [str(e)]. *)
Record exn := Exn { exn_class_of : exn_class; exn_str : pystr }.

Inductive result (A : Type) :=
  | Ok (a : A)
  | Raise (e : exn).
Arguments Ok {A} a.
Arguments Raise {A} e.

#[global] Instance result_ret : MRet result := @Ok.
#[global] Instance result_bind : MBind result := fun A B k r =>
  match r with
  | Ok a => k a
  | Raise e => Raise e
  end.

(** [except requests.exceptions.Timeout] *)
Definition is_timeout (e : exn) : bool :=
  match exn_class_of e with Timeout => true | _ => false end.

(** [except requests.exceptions.RequestException]; [Timeout] is a subclass. *)
Definition is_request_exception (e : exn) : bool :=
  match exn_class_of e with Timeout | RequestException => true | _ => false end.

(** ** Symbol resolution (get_stock_data, lines 62-66) *)

Definition allow_list : list pystr :=
  [lit "RELIANCE"; lit "TCS"; lit "HDFCBANK"; lit "INFY"; lit "SBIN";
   lit "TATAMOTORS"; lit "WIPRO"].

Definition has_exchange_suffix (symbol : pystr) : bool :=
  endswith symbol (lit ".NS") || endswith symbol (lit ".BO").

Definition resolve_symbol (symbol : pystr) : pystr :=
  if negb (has_exchange_suffix symbol) then
    if bool_decide (symbol ∈ allow_list) then symbol ++ lit ".NS"
    else symbol
  else symbol.

(** ** Python floats (IEEE-754 binary64) and numeric formatting *)

Module PyFloat.

Local Open Scope Z_scope.

Definition prec : Z := 53.
Definition emax : Z := 1024.

Definition is_finite (f : spec_float) : bool :=
  match f with
  | S754_zero _ | S754_finite _ _ _ => true
  | S754_infinity _ | S754_nan => false
  end.

Definition is_zero (f : spec_float) : bool :=
  match f with
  | S754_zero _ => true
  | _ => false
  end.

(** The integer [z] as the exact quotient [z / 2^0], not yet rounded. *)
Definition exact_int (z : Z) : spec_float :=
  match z with
  | Z0 => S754_zero false
  | Zpos p => S754_finite false p 0
  | Zneg p => S754_finite true p 0
  end.

(** [float(z)]: the nearest binary64 number, ties to even; an [int] beyond
    the range of a float raises OverflowError. *)
Definition float_of_int (z : Z) : result spec_float :=
  let f := binary_normalize prec emax z 0 false in
  if is_finite f then Ok f
  else Raise (Exn OverflowError (lit "int too large to convert to float")).

(** [a / b] on two [int]s: the correctly rounded quotient. *)
Definition int_truediv (a b : Z) : result spec_float :=
  if b =? 0 then Raise (Exn ZeroDivisionError (lit "division by zero"))
  else
    let q := SFdiv prec emax (exact_int a) (exact_int b) in
    if is_finite q then Ok q
    else Raise (Exn OverflowError
                  (lit "integer division result too large for a float")).

(** [f / b] for a [float] and an [int]: [b] is converted first. *)
Definition float_truediv_int (f : spec_float) (b : Z) : result spec_float :=
  fb ← float_of_int b;
  if is_zero fb then Raise (Exn ZeroDivisionError (lit "float division by zero"))
  else Ok (SFdiv prec emax f fb).

(** [f >= c] for a [float] and an [int]; Python compares the exact values,
    and every comparison with nan is false. *)
Definition float_ge_int (f : spec_float) (c : Z) : bool :=
  match f with
  | S754_nan => false
  | S754_infinity s => negb s
  | S754_zero _ => 0 >=? c
  | S754_finite s m e =>
      let v := cond_Zopp s (Zpos m) in
      if 0 <=? e then v * 2 ^ e >=? c else v >=? c * 2 ^ (- e)
  end.

(** Nearest integer to [n / d] for [0 <= n], [0 < d], ties to even. *)
Definition round_half_even (n d : Z) : Z :=
  let q := n / d in
  match 2 * (n mod d) ?= d with
  | Lt => q
  | Gt => q + 1
  | Eq => if Z.even q then q else q + 1
  end.

(** The magnitude [m * 2^e] in hundredths, rounded to an integer. *)
Definition hundredths (m : positive) (e : Z) : Z :=
  if 0 <=? e then Zpos m * 2 ^ e * 100
  else round_half_even (Zpos m * 100) (2 ^ (- e)).

Definition two_digits (n : Z) : pystr :=
  [digit (Z.to_N (n / 10)); digit (Z.to_N (n mod 10))].

(** Sign, integer part, point and two decimals of [h] hundredths. *)
Definition fixed2 (s : bool) (h : Z) : pystr :=
  (if s then lit "-" else []) ++ str_of_Z (h / 100) ++ lit "."
  ++ two_digits (h mod 100).

(** [format(f, '.2f')]: the exact value of [f] correctly rounded to two
    decimals. *)
Definition format_2f (f : spec_float) : pystr :=
  match f with
  | S754_nan => lit "nan"
  | S754_infinity s => if s then lit "-inf" else lit "inf"
  | S754_zero s => fixed2 s 0
  | S754_finite s m e => fixed2 s (hundredths m e)
  end.

(** Digits of a non-negative [int] with a comma every three digits,
    as [format(n, ',')] writes them. *)
Fixpoint group3 (rev_digits : pystr) : pystr :=
  match rev_digits with
  | a :: b :: c :: (_ :: _) as rest => a :: b :: c :: 44%N :: group3 rest
  | _ => rev_digits
  end.

Definition format_comma_int (z : Z) : pystr :=
  (if z <? 0 then lit "-" else [])
  ++ rev (group3 (rev (str_of_N (Z.abs_N z)))).

End PyFloat.

Import PyFloat.

(** ** Python values *)

(** The values a provider's JSON carries: [None], [bool], [int], [float],
    [str], [list] and [dict] (its items in order, keys unique). *)
Inductive pyval :=
  | VNone
  | VBool (b : bool)
  | VInt (z : Z)
  | VFloat (f : spec_float)
  | VStr (s : pystr)
  | VList (l : list pyval)
  | VDict (d : list (pystr * pyval)).

(** [type(v).__name__] *)
Definition type_name (v : pyval) : pystr :=
  match v with
  | VNone => lit "NoneType"
  | VBool _ => lit "bool"
  | VInt _ => lit "int"
  | VFloat _ => lit "float"
  | VStr _ => lit "str"
  | VList _ => lit "list"
  | VDict _ => lit "dict"
  end.

(** [isinstance(v, (int, float))]; [bool] is a subclass of [int]. *)
Definition is_number (v : pyval) : bool :=
  match v with
  | VBool _ | VInt _ | VFloat _ => true
  | _ => false
  end.

Definition is_str (v : pyval) : bool :=
  match v with
  | VStr _ => true
  | _ => false
  end.

Definition quoted (s : pystr) : pystr := lit "'" ++ s ++ lit "'".

Definition not_subscriptable (v : pyval) : exn :=
  Exn TypeError (quoted (type_name v) ++ lit " object is not subscriptable").

(** [d.get(key)] on the items of a dict. *)
Fixpoint items_lookup (key : pystr) (d : list (pystr * pyval)) : option pyval :=
  match d with
  | [] => None
  | (k, v) :: d' => if bool_decide (k = key) then Some v else items_lookup key d'
  end.

(** [key in v] for a [str] key. *)
Definition py_contains (key : pystr) (v : pyval) : result bool :=
  match v with
  | VDict d => Ok (bool_decide (is_Some (items_lookup key d)))
  | VList l =>
      Ok (existsb (fun x => match x with
                            | VStr s => bool_decide (s = key)
                            | _ => false
                            end) l)
  | VStr s => Ok (contains s key)
  | _ => Raise (Exn TypeError (lit "argument of type " ++ quoted (type_name v)
                               ++ lit " is not iterable"))
  end.

(** [v[key]] for a [str] key. *)
Definition py_getitem_str (v : pyval) (key : pystr) : result pyval :=
  match v with
  | VDict d =>
      match items_lookup key d with
      | Some x => Ok x
      | None => Raise (Exn KeyError (quoted key))
      end
  | VList _ =>
      Raise (Exn TypeError (lit "list indices must be integers or slices, not str"))
  | VStr _ =>
      Raise (Exn TypeError (lit "string indices must be integers, not 'str'"))
  | _ => Raise (not_subscriptable v)
  end.

(** [v[0]] *)
Definition py_getitem_0 (v : pyval) : result pyval :=
  match v with
  | VList (x :: _) => Ok x
  | VList [] => Raise (Exn IndexError (lit "list index out of range"))
  | VStr (c :: _) => Ok (VStr [c])
  | VStr [] => Raise (Exn IndexError (lit "string index out of range"))
  | VDict _ => Raise (Exn KeyError (lit "0"))
  | _ => Raise (not_subscriptable v)
  end.

(** [len(v)] *)
Definition py_len (v : pyval) : result nat :=
  match v with
  | VDict d => Ok (length d)
  | VList l => Ok (length l)
  | VStr s => Ok (length s)
  | _ => Raise (Exn TypeError (lit "object of type " ++ quoted (type_name v)
                               ++ lit " has no len()"))
  end.

(** [v >= c] for a number [v] and an [int] constant [c]. *)
Definition num_ge (v : pyval) (c : Z) : bool :=
  match v with
  | VBool b => (Z.b2z b >=? c)%Z
  | VInt z => (z >=? c)%Z
  | VFloat f => float_ge_int f c
  | _ => false
  end.

(** [v / c] for a number [v] and an [int] constant [c]. *)
Definition num_truediv (v : pyval) (c : Z) : result spec_float :=
  match v with
  | VBool b => int_truediv (Z.b2z b) c
  | VInt z => int_truediv z c
  | VFloat f => float_truediv_int f c
  | _ => Raise (Exn TypeError (lit "unsupported operand type(s) for /: "
                               ++ quoted (type_name v) ++ lit " and 'int'"))
  end.

(** [format(v, '.2f')] for a number [v]: an [int] is converted to [float]
    first. *)
Definition num_format_2f (v : pyval) : result pystr :=
  match v with
  | VBool b => f ← float_of_int (Z.b2z b); Ok (format_2f f)
  | VInt z => f ← float_of_int z; Ok (format_2f f)
  | VFloat f => Ok (format_2f f)
  | VStr _ => Raise (Exn ValueError (lit "Unknown format code 'f' for object of type 'str'"))
  | _ => Raise (Exn TypeError (lit "unsupported format string passed to "
                               ++ type_name v ++ lit ".__format__"))
  end.

(** ** Data model of the pipeline *)

(** The quote metadata [stock.info]: a dict from field name to value. *)
Abbreviation quote := (gmap string pyval).

(** The price history: a pandas DataFrame with a date index and float
    columns. *)
Record DataFrame := {
  df_index : list Z;
  df_columns : list (string * list spec_float)
}.

(** [history.empty]: some axis has length 0. *)
Definition df_empty (h : DataFrame) : bool :=
  match df_index h, df_columns h with
  | _ :: _, _ :: _ => false
  | _, _ => true
  end.

(** [history[name]] *)
Fixpoint columns_lookup (name : string) (cols : list (string * list spec_float))
  : option (list spec_float) :=
  match cols with
  | [] => None
  | (k, c) :: cols' => if bool_decide (k = name) then Some c else columns_lookup name cols'
  end.

Definition df_getitem (h : DataFrame) (name : string) : result (list spec_float) :=
  match columns_lookup name (df_columns h) with
  | Some c => Ok c
  | None => Raise (Exn KeyError (quoted (lit name)))
  end.

(** The values stored in the dict [get_stock_data] returns. *)
Inductive field :=
  | FBool (b : bool)
  | FStr (s : pystr)
  | FInfo (info : quote)
  | FHistory (h : DataFrame).

Abbreviation stock_dict := (gmap string field).

(** An encoded image, [io.BytesIO]. *)
Definition bytes := list N.

(** ** External collaborators *)

(** What the interpreter does that the source leaves to it. *)
Record runtime := {
  py_upper : pystr -> pystr;            (* str.upper *)
  py_strip : pystr -> pystr;            (* str.strip *)
  float_str : spec_float -> pystr;      (* str(f) of a float *)
  float_comma : spec_float -> pystr;    (* format(f, ',') of a float *)
  container_str : pyval -> pystr;       (* str(v) of a list or dict *)
  object_str : field -> pystr           (* str(v) of a quote dict or DataFrame *)
}.

(** yfinance: [yf.Ticker(symbol).info] and [.history(start, end)] over the
    30 days before the call. *)
Record provider := {
  ticker_info : pystr -> result (option quote);
  ticker_history : pystr -> result DataFrame
}.

(** matplotlib: the calls of [generate_chart] that draw and encode. *)
Record plotlib := {
  mpl_use : result unit;                (* matplotlib.use('Agg') *)
  mpl_add_subplot : result unit;        (* fig.add_subplot(111) *)
  mpl_render : list Z -> list spec_float -> result bytes
                                        (* ax.plot ... plt.savefig, buf *)
}.

(** The HTTP response of the analysis endpoint. *)
Record response := {
  status_code : Z;
  text : pystr;
  json : result pyval                   (* response.json() *)
}.

(** [requests.post(url, headers, json=payload, timeout=30)] as a function
    of the prompt. *)
Record analysis_api := {
  http_post : pystr -> result response
}.

(** The update passed to the handler, as far as the handler reads it:
    [update.message] is None for an edited message or a channel post, which
    the handler is also given; otherwise the filter of the handler leaves
    only messages with a text. *)
Record Update := {
  update_message : option pystr
}.

(** The update of a new message with the text [t]. *)
Definition text_update (t : pystr) : Update := {| update_message := Some t |}.

(** The calls made on the chat transport. *)
Inductive tg_request :=
  | ReplyText (body : pystr)
  | EditText (body : pystr) (markdown : bool)
  | ReplyPhoto (photo : bytes) (caption : pystr)
  | DeleteMessage.

Record transport := {
  tg_send : tg_request -> result unit
}.

(** ** The machine state and the monad of effects *)

(** What a request can change: the figures pyplot keeps open (their
    numbers, the current figure last), the calls made on the chat transport
    (the latest first, each with whether it was delivered), and the local
    variable [analysis] of the running [handle_stock]. *)
Record state := {
  figures : list nat;
  sent : list (tg_request * bool);
  analysis_var : option pyval
}.

(** A computation that reads and changes the state and returns or raises. *)
Definition io (A : Type) : Type := state -> result A * state.

#[global] Instance io_ret : MRet io := fun A a st => (Ok a, st).
#[global] Instance io_bind : MBind io := fun A B k c st =>
  match c st with
  | (Ok a, st') => k a st'
  | (Raise e, st') => (Raise e, st')
  end.

(** A pure fallible computation, run inside [io]. *)
Definition lift {A} (r : result A) : io A := fun st => (r, st).

(** [raise e] *)
Definition throw {A} (e : exn) : io A := lift (Raise e).

(** [try: body / except Exception as e: handler(e)] *)
Definition try_except {A} (body : io A) (handler : exn -> io A) : io A :=
  fun st =>
    match body st with
    | (Ok a, st') => (Ok a, st')
    | (Raise e, st') => handler e st'
    end.

(** *** pyplot's figure registry *)

Definition fresh_num (figs : list nat) : nat := S (foldr Nat.max 0 figs).

(** [plt.figure()]: a new figure, which becomes the current one. *)
Definition plt_figure : io nat := fun st =>
  let n := fresh_num (figures st) in
  (Ok n, {| figures := figures st ++ [n]; sent := sent st;
            analysis_var := analysis_var st |}).

(** [plt.clf()] is [gcf().clear()]: it clears the current figure, and
    [gcf()] makes one when none is open. *)
Definition plt_clf : io unit := fun st =>
  match figures st with
  | [] => match plt_figure st with (_, st') => (Ok (), st') end
  | _ :: _ => (Ok (), st)
  end.

(** [plt.close(fig)] *)
Definition plt_close (n : nat) : io unit := fun st =>
  (Ok (), {| figures := filter (fun k => k <> n) (figures st); sent := sent st;
             analysis_var := analysis_var st |}).

(** *** Local variable [analysis] *)

(** [analysis = v] *)
Definition assign_analysis (v : pyval) : io unit := fun st =>
  (Ok (), {| figures := figures st; sent := sent st; analysis_var := Some v |}).

(** The error of reading [analysis] before it is assigned (CPython 3.11
    wording). *)
Definition unbound_analysis : exn :=
  Exn UnboundLocalError
    (lit "cannot access local variable 'analysis' where it is not associated with a value").

(** Reading [analysis]. *)
Definition read_analysis : io pyval := fun st =>
  match analysis_var st with
  | Some v => (Ok v, st)
  | None => (Raise unbound_analysis, st)
  end.

(** Entering [handle_stock]: no local is bound yet. *)
Definition enter_frame : io unit := fun st =>
  (Ok (), {| figures := figures st; sent := sent st; analysis_var := None |}).

(** ** Literals of the source *)

Definition nl : pystr := [10%N].
Definition emoji_bar_chart : pystr := [0x1F4CA%N].       (* U+1F4CA *)
Definition emoji_money_bag : pystr := [0x1F4B0%N].       (* U+1F4B0 *)
Definition emoji_chart_up : pystr := [0x1F4C8%N].        (* U+1F4C8 *)
Definition emoji_chart_yen : pystr := [0x1F4B9%N].       (* U+1F4B9 *)
Definition emoji_memo : pystr := [0x1F4DD%N].            (* U+1F4DD *)
Definition emoji_cross : pystr := [0x274C%N].            (* U+274C *)
Definition emoji_arrows : pystr := [0x1F504%N].          (* U+1F504 *)

Definition NA : pystr := lit "N/A".

Definition hint_text : pystr :=
  lit ". If this is an Indian stock, try adding .NS (for NSE) or .BO (for BSE) to the symbol.".

Definition no_data_plain : pystr :=
  lit "No data available for this symbol. Please check if the symbol is correct.".

Definition chart_failed_notice : pystr :=
  emoji_cross ++ lit " Chart generation failed, but here's the analysis:" ++ nl ++ nl.

(** [{'success': False, 'error': msg}] *)
Definition failure (msg : pystr) : stock_dict :=
  {[ "success" := FBool false; "error" := FStr msg ]}.

(** [{'info': info, 'history': history, 'success': True}] *)
Definition success (info : quote) (history : DataFrame) : stock_dict :=
  {[ "info" := FInfo info; "history" := FHistory history; "success" := FBool true ]}.

(** ** The program *)

Section Pipeline.

Variable rt : runtime.
Variable yf : provider.
Variable mpl : plotlib.
Variable api : analysis_api.
Variable chat : transport.

(** *** get_stock_data *)

(** [not info or 'regularMarketPrice' not in info] *)
Definition info_unusable (info : option quote) : bool :=
  match info with
  | None => true
  | Some d => bool_decide (d = ∅) || negb (bool_decide (is_Some (d !! "regularMarketPrice")))
  end.

(** The error of line 81. *)
Definition no_data_hint (symbol : pystr) : pystr :=
  lit "No data available for " ++ symbol ++ hint_text.

(** The body of the [try] of [get_stock_data]. *)
Definition fetch (original_symbol : pystr) : result stock_dict :=
  let symbol := resolve_symbol original_symbol in
  info ← ticker_info yf symbol;
  if info_unusable info then
    if bool_decide (original_symbol = symbol)
    then Ok (failure (no_data_hint symbol))
    else Ok (failure no_data_plain)
  else
    history ← ticker_history yf symbol;
    if df_empty history
    then Ok (failure (lit "No historical data available"))
    else Ok (success (default ∅ info) history).

Definition get_stock_data (symbol : pystr) : result stock_dict :=
  match fetch symbol with
  | Ok d => Ok d
  | Raise e => Ok (failure (exn_str e))
  end.

(** *** generate_chart *)

(** [history.index, history['Close']] on the value passed as [history]. *)
Definition index_and_close (history : field) : result (list Z * list spec_float) :=
  match history with
  | FHistory h => close ← df_getitem h "Close"; Ok (df_index h, close)
  | FStr _ => Raise (Exn TypeError (lit "string indices must be integers, not 'str'"))
  | FBool _ => Raise (Exn AttributeError (lit "'bool' object has no attribute 'index'"))
  | FInfo _ => Raise (Exn AttributeError (lit "'dict' object has no attribute 'index'"))
  end.

Definition generate_chart (history : field) : io bytes :=
  try_except
    (_ ← lift (mpl_use mpl);
     _ ← plt_clf;
     fig ← plt_figure;
     _ ← lift (mpl_add_subplot mpl);
     xy ← lift (index_and_close history);
     buf ← lift (mpl_render mpl xy.1 xy.2);
     _ ← plt_close fig;
     mret buf)
    (fun e => throw (Exn PlainException (lit "Failed to generate chart: " ++ exn_str e))).

(** *** get_perplexity_analysis *)

(** [str(v)], which is also [format(v, '')]. *)
Definition py_str (v : pyval) : pystr :=
  match v with
  | VNone => lit "None"
  | VBool true => lit "True"
  | VBool false => lit "False"
  | VInt z => str_of_Z z
  | VFloat f => float_str rt f
  | VStr s => s
  | VList _ | VDict _ => container_str rt v
  end.

(** [format(v, ',')] *)
Definition format_comma (v : pyval) : result pystr :=
  match v with
  | VBool b => Ok (format_comma_int (Z.b2z b))
  | VInt z => Ok (format_comma_int z)
  | VFloat f => Ok (float_comma rt f)
  | VStr _ => Raise (Exn ValueError (lit "Cannot specify ',' with 's'."))
  | _ => Raise (Exn TypeError (lit "unsupported format string passed to "
                               ++ type_name v ++ lit ".__format__"))
  end.

(** [stock_data['info']], on which the source calls [.get]. *)
Definition get_info (stock_data : stock_dict) : result quote :=
  match stock_data !! "info" with
  | Some (FInfo info) => Ok info
  | Some _ => Raise (Exn AttributeError (lit "object has no attribute 'get'"))
  | None => Raise (Exn KeyError (lit "'info'"))
  end.

(** [info.get(key, 'N/A')] *)
Definition get_or_na (info : quote) (key : string) : pyval :=
  default (VStr NA) (info !! key).

(** The f-string of lines 158-166; its fields are formatted left to
    right. *)
Definition build_prompt (stock_data : stock_dict) : result pystr :=
  info ← get_info stock_data;
  let current_price := py_str (get_or_na info "currentPrice") in
  market_cap ← format_comma (get_or_na info "marketCap");
  let pe := py_str (get_or_na info "trailingPE") in
  let high := py_str (get_or_na info "fiftyTwoWeekHigh") in
  let low := py_str (get_or_na info "fiftyTwoWeekLow") in
  volume ← format_comma (get_or_na info "volume");
  Ok (lit "Analyze the following stock data and provide a very concise 3-4 sentence summary:" ++ nl
      ++ lit "    Current Price: $" ++ current_price ++ nl
      ++ lit "    Market Cap: $" ++ market_cap ++ nl
      ++ lit "    P/E Ratio: " ++ pe ++ nl
      ++ lit "    52-Week High: $" ++ high ++ nl
      ++ lit "    52-Week Low: $" ++ low ++ nl
      ++ lit "    Volume: " ++ volume ++ nl
      ++ lit "    " ++ nl
      ++ lit "    Focus on: 1) Current position vs 52-week range, 2) Key valuation insight from P/E ratio, 3) Brief outlook. Use plain text without markdown formatting.").

(** The body of the [try] of [get_perplexity_analysis]. *)
Definition request_analysis (prompt : pystr) : result pyval :=
  resp ← http_post api prompt;
  if negb (status_code resp =? 200)%Z then
    Ok (VStr (lit "Unable to generate analysis. Error: " ++ text resp))
  else
    response_json ← json resp;
    has_choices ← py_contains (lit "choices") response_json;
    nonempty ← (if has_choices : bool then
                  choices ← py_getitem_str response_json (lit "choices");
                  n ← py_len choices;
                  Ok (0 <? n)
                else Ok false);
    if nonempty : bool then
      choices ← py_getitem_str response_json (lit "choices");
      first ← py_getitem_0 choices;
      message ← py_getitem_str first (lit "message");
      py_getitem_str message (lit "content")
    else
      Ok (VStr (lit "Unable to generate analysis: Unexpected API response format")).

(** The three [except] clauses, tried in order. *)
Definition analysis_fallback (e : exn) : pyval :=
  if is_timeout e then
    VStr (lit "Unable to generate analysis: Request timed out")
  else if is_request_exception e then
    VStr (lit "Unable to generate analysis: Network error - " ++ exn_str e)
  else
    VStr (lit "Unable to generate analysis: " ++ exn_str e).

Definition get_perplexity_analysis (stock_data : stock_dict) : result pyval :=
  prompt ← build_prompt stock_data;
  match request_analysis prompt with
  | Ok v => Ok v
  | Raise e => Ok (analysis_fallback e)
  end.

(** *** format_stock_message *)

(** Lines 226-233: the market-cap text that ends up in the message. *)
Definition format_market_cap (market_cap : pyval) : result pystr :=
  if is_number market_cap then
    if num_ge market_cap 1000000000000 then
      q ← num_truediv market_cap 1000000000000;
      Ok (lit "$" ++ format_2f q ++ lit "T")
    else if num_ge market_cap 1000000000 then
      q ← num_truediv market_cap 1000000000;
      Ok (lit "$" ++ format_2f q ++ lit "B")
    else if num_ge market_cap 1000000 then
      q ← num_truediv market_cap 1000000;
      Ok (lit "$" ++ format_2f q ++ lit "M")
    else Ok (py_str market_cap)
  else Ok (py_str market_cap).

(** [f"${v:.2f}" if isinstance(v, (int, float)) else 'N/A'] *)
Definition format_price (v : pyval) : result pystr :=
  if is_number v then s ← num_format_2f v; Ok (lit "$" ++ s) else Ok NA.

(** [f"{v:.2f}" if isinstance(v, (int, float)) else 'N/A'] *)
Definition format_ratio (v : pyval) : result pystr :=
  if is_number v then num_format_2f v else Ok NA.

(** Lines 246-251: the five [replace] calls on [analysis]. *)
Definition clean (analysis : pyval) : result pystr :=
  match analysis with
  | VStr a =>
      let a := replace a (lit "**") [] in
      let a := replace a (lit "*") [] in
      let a := replace a (lit "`") [] in
      let a := replace a (lit "_") [] in
      let a := replace a (lit "#") [] in
      Ok a
  | _ => Raise (Exn AttributeError (quoted (type_name analysis)
                                    ++ lit " object has no attribute 'replace'"))
  end.

(** The first line of the message. *)
Definition header (symbol : pystr) : pystr :=
  emoji_bar_chart ++ lit " *" ++ py_upper rt symbol ++ lit " Stock Analysis*".

(** Lines 223-262: the message before its length is bounded. *)
Definition compose_message (symbol : pystr) (stock_data : stock_dict)
    (analysis : pyval) : result pystr :=
  info ← get_info stock_data;
  market_cap ← format_market_cap (get_or_na info "marketCap");
  current_price ← format_price (get_or_na info "currentPrice");
  prev_close ← format_price (get_or_na info "previousClose");
  pe_ratio ← format_ratio (get_or_na info "trailingPE");
  clean_analysis ← clean analysis;
  Ok (header symbol ++ nl ++ nl
      ++ emoji_money_bag ++ lit " Current Price: " ++ current_price ++ nl
      ++ emoji_chart_up ++ lit " Previous Close: " ++ prev_close ++ nl
      ++ emoji_chart_yen ++ lit " Market Cap: " ++ market_cap ++ nl
      ++ emoji_bar_chart ++ lit " P/E Ratio: " ++ pe_ratio ++ nl ++ nl
      ++ emoji_memo ++ lit " *Analysis*:" ++ nl
      ++ clean_analysis ++ nl ++ nl).

(** Lines 265-266. *)
Definition bound_length (message : pystr) : pystr :=
  if 1000 <? len message then slice_to 997 message ++ lit "..." else message.

Definition format_stock_message (symbol : pystr) (stock_data : stock_dict)
    (analysis : pyval) : result pystr :=
  message ← compose_message symbol stock_data analysis;
  Ok (bound_length message).

(** *** handle_stock *)

(** A call on the chat transport, recorded with its outcome. *)
Definition tg (r : tg_request) : io unit := fun st =>
  let out := tg_send chat r in
  (out, {| figures := figures st;
           sent := (r, match out with Ok _ => true | Raise _ => false end) :: sent st;
           analysis_var := analysis_var st |}).

(** [d[key]] on the dict of [get_stock_data]. *)
Definition dict_getitem (d : stock_dict) (key : string) : result field :=
  match d !! key with
  | Some v => Ok v
  | None => Raise (Exn KeyError (quoted (lit key)))
  end.

(** [bool(v)] *)
Definition truthy (v : field) : result bool :=
  match v with
  | FBool b => Ok b
  | FStr s => Ok (negb (bool_decide (s = [])))
  | FInfo d => Ok (negb (bool_decide (d = ∅)))
  | FHistory _ =>
      Raise (Exn ValueError (lit "The truth value of a DataFrame is ambiguous. Use a.empty, a.bool(), a.item(), a.any() or a.all()."))
  end.

(** [str(v)] *)
Definition field_str (v : field) : pystr :=
  match v with
  | FBool true => lit "True"
  | FBool false => lit "False"
  | FStr s => s
  | _ => object_str rt v
  end.

Definition processing_text (symbol : pystr) : pystr :=
  emoji_arrows ++ lit " Processing " ++ symbol ++ lit "... Please wait.".

Definition fetch_error_text (symbol error_msg : pystr) : pystr :=
  emoji_cross ++ lit " Error: Unable to fetch data for " ++ symbol
  ++ lit ". Error: " ++ error_msg.

Definition processing_error_text (symbol : pystr) (e : exn) : pystr :=
  emoji_cross ++ lit " Error processing " ++ symbol ++ lit ": " ++ exn_str e
  ++ nl ++ lit "Please try again later.".

(** Lines 323-324: what the fallback puts before the formatted message. *)
Definition fallback_prefix (symbol : pystr) : pystr :=
  emoji_bar_chart ++ lit " *" ++ py_upper rt symbol ++ lit " - Stock Analysis*"
  ++ nl ++ nl ++ chart_failed_notice.

(** Lines 296-318: the inner [try]. *)
Definition chart_and_send (symbol : pystr) (stock_data : stock_dict) : io unit :=
  history ← lift (dict_getitem stock_data "history");
  chart_buf ← generate_chart history;
  a ← lift (get_perplexity_analysis stock_data);
  _ ← assign_analysis a;
  analysis ← read_analysis;
  message ← lift (format_stock_message symbol stock_data analysis);
  _ ← tg (ReplyPhoto chart_buf message);
  tg DeleteMessage.

(** Lines 320-326: the handler of the inner [try]. *)
Definition text_fallback (symbol : pystr) (stock_data : stock_dict)
    (chart_error : exn) : io unit :=
  analysis ← read_analysis;
  message ← lift (format_stock_message symbol stock_data analysis);
  tg (EditText (fallback_prefix symbol ++ message) true).

(** Lines 280-326: the outer [try]. *)
Definition process (symbol : pystr) : io unit :=
  stock_data ← lift (get_stock_data symbol);
  ok ← lift (v ← dict_getitem stock_data "success"; truthy v);
  if negb ok then
    let error_msg :=
      match stock_data !! "error" with
      | Some v => field_str v
      | None => lit "Unknown error"
      end in
    tg (EditText (fetch_error_text symbol error_msg) false)
  else
    try_except (chart_and_send symbol stock_data)
               (text_fallback symbol stock_data).

(** [update.message.text], line 272: outside both [try] blocks. *)
Definition update_text (update : Update) : result pystr :=
  match update_message update with
  | Some t => Ok t
  | None =>
      Raise (Exn AttributeError (lit "'NoneType' object has no attribute 'text'"))
  end.

Definition handle_stock (update : Update) : io unit :=
  _ ← enter_frame;
  message_text ← lift (update_text update);
  let symbol := py_upper rt (py_strip rt message_text) in
  _ ← tg (ReplyText (processing_text symbol));
  try_except (process symbol)
             (fun e => tg (EditText (processing_error_text symbol e) false)).

End Pipeline.

(** ** Stand-ins for the collaborators, for closed examples *)

Module Fixtures.

(** ASCII [upper]: enough for ticker symbols. *)
Definition ascii_upper (s : pystr) : pystr :=
  map (fun c => if (97 <=? c)%N && (c <=? 122)%N then (c - 32)%N else c) s.

Definition is_space (c : N) : bool :=
  (c =? 32)%N || ((9 <=? c)%N && (c <=? 13)%N).

Fixpoint lstrip (s : pystr) : pystr :=
  match s with
  | c :: s' => if is_space c then lstrip s' else s
  | [] => []
  end.

Definition ascii_strip (s : pystr) : pystr := rev (lstrip (rev (lstrip s))).

(** A runtime for the examples: ASCII case and whitespace, which is what
    ticker symbols need.  The examples render no float through [str] or
    through [','], so the two float oracles are stand-ins. *)
Definition rt0 : runtime := {|
  py_upper := ascii_upper;
  py_strip := ascii_strip;
  float_str := format_2f;
  float_comma := format_2f;
  container_str := fun _ => lit "[...]";
  object_str := fun _ => lit "{...}"
|}.

(** A quote with a live price and nothing else. *)
Definition price_only : quote :=
  {[ "regularMarketPrice" := VInt 100; "currentPrice" := VInt 100 ]}.

(** A complete quote. *)
Definition full_quote : quote :=
  {[ "regularMarketPrice" := VInt 100; "currentPrice" := VInt 100;
     "previousClose" := VInt 99; "marketCap" := VInt 2500000000000;
     "trailingPE" := VInt 25; "fiftyTwoWeekHigh" := VInt 120;
     "fiftyTwoWeekLow" := VInt 80; "volume" := VInt 1234567 ]}.

Definition one_day : DataFrame :=
  {| df_index := [0%Z]; df_columns := [("Close", [S754_zero false])] |}.

(** A frame with a row but no [Close] column. *)
Definition no_close : DataFrame :=
  {| df_index := [0%Z]; df_columns := [("Open", [S754_zero false])] |}.

(** A provider that knows every symbol. *)
Definition yf_of (q : option quote) (h : DataFrame) : provider :=
  {| ticker_info := fun _ => Ok q; ticker_history := fun _ => Ok h |}.

(** A provider that is unreachable. *)
Definition yf_down : provider :=
  {| ticker_info := fun _ => Raise (Exn RequestException (lit "connection refused"));
     ticker_history := fun _ => Raise (Exn RequestException (lit "connection refused")) |}.

(** A provider whose history lookup fails. *)
Definition yf_history_down (q : quote) : provider :=
  {| ticker_info := fun _ => Ok (Some q);
     ticker_history := fun _ => Raise (Exn ValueError (lit "bad period")) |}.

Definition png : bytes := [137; 80; 78; 71]%N.

Definition mpl_ok : plotlib :=
  {| mpl_use := Ok (); mpl_add_subplot := Ok ();
     mpl_render := fun _ _ => Ok png |}.

(** A plotting library whose drawing fails. *)
Definition mpl_broken : plotlib :=
  {| mpl_use := Ok (); mpl_add_subplot := Ok ();
     mpl_render := fun _ _ => Raise (Exn ValueError (lit "Image size is too large")) |}.

Definition reply_of (content : pystr) : pyval :=
  VDict [(lit "choices",
          VList [VDict [(lit "message", VDict [(lit "content", VStr content)])]])].

Definition api_of (content : pystr) : analysis_api :=
  {| http_post := fun _ =>
       Ok {| status_code := 200; text := []; json := Ok (reply_of content) |} |}.

Definition api_timeout : analysis_api :=
  {| http_post := fun _ => Raise (Exn Timeout (lit "read timed out")) |}.

Definition chat_ok : transport := {| tg_send := fun _ => Ok () |}.

(** A transport on which sending a photo fails. *)
Definition chat_no_photo : transport :=
  {| tg_send := fun r =>
       match r with
       | ReplyPhoto _ _ => Raise (Exn PlainException (lit "Timed out"))
       | _ => Ok ()
       end |}.

Definition st0 : state := {| figures := []; sent := []; analysis_var := None |}.

(** A provider with a complete quote and one day of history. *)
Definition yf_full : provider := yf_of (Some full_quote) one_day.

(** The request "AAPL" when drawing the chart fails. *)
Definition run_chart_failure : result () * state :=
  handle_stock rt0 yf_full mpl_broken (api_of (lit "fine")) chat_ok
    (text_update (lit "AAPL")) st0.

(** A state in which [analysis] is bound. *)
Definition st_analysed : state :=
  {| figures := [1]; sent := []; analysis_var := Some (VStr (lit "fine")) |}.

(** A frame with a [Close] column and no rows. *)
Definition no_rows : DataFrame :=
  {| df_index := []; df_columns := [("Close", [])] |}.

(** A provider without metadata whose history lookup fails. *)
Definition yf_no_info_down : provider :=
  {| ticker_info := fun _ => Ok None;
     ticker_history := fun _ => Raise (Exn RequestException (lit "connection refused")) |}.

(** A provider that knows INFY.NS and nothing else. *)
Definition yf_only_infy : provider :=
  {| ticker_info := fun s =>
       if bool_decide (s = lit "INFY.NS") then Ok (Some full_quote)
       else Raise (Exn KeyError (lit "'unknown'"));
     ticker_history := fun s =>
       if bool_decide (s = lit "INFY.NS") then Ok one_day
       else Raise (Exn KeyError (lit "'unknown'")) |}.

Definition api_network : analysis_api :=
  {| http_post := fun _ => Raise (Exn RequestException (lit "connection reset")) |}.

Definition api_crash : analysis_api :=
  {| http_post := fun _ => Raise (Exn ValueError (lit "bad header")) |}.

Definition api_unauthorized : analysis_api :=
  {| http_post := fun _ =>
       Ok {| status_code := 401; text := lit "unauthorized";
             json := Raise (Exn RequestException (lit "no body")) |} |}.

(** An endpoint that answers 200 with the given JSON. *)
Definition api_json (v : pyval) : analysis_api :=
  {| http_post := fun _ => Ok {| status_code := 200; text := []; json := Ok v |} |}.

(** A transport on which every call fails. *)
Definition chat_down : transport :=
  {| tg_send := fun _ => Raise (Exn PlainException (lit "Timed out")) |}.

(** A transport on which deleting a message fails. *)
Definition chat_no_delete : transport :=
  {| tg_send := fun r =>
       match r with
       | DeleteMessage => Raise (Exn PlainException (lit "Message to delete not found"))
       | _ => Ok ()
       end |}.

(** A quote whose fields are present but not numbers, without market
    capitalization. *)
Definition odd_quote : quote :=
  {[ "regularMarketPrice" := VNone; "currentPrice" := VNone;
     "previousClose" := VStr (lit "n.a."); "trailingPE" := VList [] ]}.

(** A quote with the two grouped fields of the prompt and the live
    price. *)
Definition cap_and_volume : quote :=
  {[ "regularMarketPrice" := VInt 100; "marketCap" := VInt 2500000000000;
     "volume" := VInt 1234567 ]}.

(** The caption of the request "AAPL" with the complete quote and the
    analysis "fine". *)
Definition caption_aapl : pystr :=
  header rt0 (lit "AAPL") ++ nl ++ nl
  ++ emoji_money_bag ++ lit " Current Price: $100.00" ++ nl
  ++ emoji_chart_up ++ lit " Previous Close: $99.00" ++ nl
  ++ emoji_chart_yen ++ lit " Market Cap: $2.50T" ++ nl
  ++ emoji_bar_chart ++ lit " P/E Ratio: 25.00" ++ nl ++ nl
  ++ emoji_memo ++ lit " *Analysis*:" ++ nl
  ++ lit "fine" ++ nl ++ nl.

End Fixtures.

(** ** Vocabulary of the properties *)

(** A decimal digit. *)
Definition is_digit (c : N) : Prop := (48 <= c <= 57)%N.

(** A number written with two decimal places: digits, a point, two
    digits. *)
Definition two_decimals (s : pystr) : Prop :=
  exists whole d1 d2,
    s = whole ++ lit "." ++ [d1; d2] /\
    whole <> [] /\ Forall is_digit whole /\ is_digit d1 /\ is_digit d2.

(** A float that is zero or finite, with the sign bit clear. *)
Definition finite_nonneg (q : spec_float) : Prop :=
  match q with
  | S754_zero s | S754_finite s _ _ => s = false
  | _ => False
  end.

(** The state in which the body of the [try] draws: after [plt.clf()] and
    [plt.figure()]. *)
Definition drawing_state (st : state) : nat * state :=
  match plt_clf st with
  | (_, st1) =>
      match plt_figure st1 with
      | (Ok fig, st2) => (fig, st2)
      | (Raise _, st2) => (0, st2)
      end
  end.

(** The text a call on the chat transport carries. *)
Definition request_text (r : tg_request) : pystr :=
  match r with
  | ReplyText body | EditText body _ => body
  | ReplyPhoto _ caption => caption
  | DeleteMessage => []
  end.

(** Some call on the chat transport carried the chart-failure notice. *)
Definition fallback_attempted (st : state) : bool :=
  existsb (fun '(r, _) =>
             contains (request_text r)
                      (lit "Chart generation failed, but here's the analysis:"))
          (sent st).

(** The state of [handle_stock] once the placeholder is sent. *)
Definition after_placeholder (symbol : pystr) (st : state) : state :=
  {| figures := figures st;
     sent := (ReplyText (processing_text symbol), true) :: sent st;
     analysis_var := None |}.

(** A message mentions a domestic exchange suffix. *)
Definition mentions_suffix (msg : pystr) : bool :=
  contains msg (lit ".NS") || contains msg (lit ".BO").

(** The registry once a call has succeeded. *)
Definition registry_after (figs : list nat) : list nat :=
  match figs with
  | [] => [1]
  | _ :: _ => figs
  end.

(** The markup characters removed from the analysis: asterisk, backtick,
    underscore and hash. *)
Definition markup : list N := [42; 96; 95; 35]%N.

(** The analysis text without its markup characters. *)
Definition strip_markup (a : pystr) : pystr := filter (fun c => c ∉ markup) a.

(** A computation only adds calls to the chat log, each of them satisfying
    [P], and what it returns satisfies [Q]. *)
Definition adds (P : tg_request -> Prop) {A} (c : io A) (Q : A -> Prop) : Prop :=
  forall st,
    (exists newer, sent (c st).2 = newer ++ sent st /\
                   Forall (fun entry => P entry.1) newer) /\
    (forall a, (c st).1 = Ok a -> Q a).

(** A photo is sent with a caption of at most 1000 characters. *)
Definition caption_bounded (r : tg_request) : Prop :=
  match r with
  | ReplyPhoto _ caption => len caption <= 1000
  | _ => True
  end.

(** * Properties *)

(** ** Fallible computations *)

Lemma bind_ok {A B} (r : result A) (k : A -> result B) (b : B) :
  r ≫= k = Ok b -> exists a, r = Ok a /\ k a = Ok b.
Proof. destruct r as [a|e]; [by exists a | done]. Qed.

Lemma Ok_inj {A} (a b : A) : Ok a = Ok b -> a = b.
Proof. by intros [= ->]. Qed.

Lemma bind_raise {A B} (r : result A) (k : A -> result B) (e : exn) :
  r = Raise e -> r ≫= k = Raise e.
Proof. by intros ->. Qed.

(** ** Strings *)

Module PyStrFacts.

Lemma startswith_app (p s : pystr) : startswith (p ++ s) p = true.
Proof.
  induction p as [|c p IH]; simpl; [done|].
  by rewrite N.eqb_refl, IH.
Qed.

Lemma startswith_prefix (s p : pystr) :
  startswith s p = true <-> exists t, s = p ++ t.
Proof.
  split.
  - revert s. induction p as [|c p IH]; intros s H; [by exists s|].
    destruct s as [|d s]; simpl in H; [done|].
    apply andb_true_iff in H as [Hc Hs]. apply N.eqb_eq in Hc as ->.
    destruct (IH _ Hs) as [t ->]. by exists t.
  - intros [t ->]. apply startswith_app.
Qed.

Lemma contains_startswith (s sub : pystr) :
  startswith s sub = true -> contains s sub = true.
Proof. intros H. destruct s; simpl; by rewrite H. Qed.

Lemma contains_app (a sub b : pystr) : contains (a ++ sub ++ b) sub = true.
Proof.
  induction a as [|c a IH]; simpl.
  - apply contains_startswith, startswith_app.
  - rewrite IH. apply orb_true_r.
Qed.

(** [contains] decides that [sub] is a slice of [s]. *)
Lemma contains_slice (s sub : pystr) :
  contains s sub = true <-> exists a b, s = a ++ sub ++ b.
Proof.
  split; [|intros (a & b & ->); apply contains_app].
  induction s as [|c s IH]; simpl; rewrite orb_true_iff.
  - intros [H | H]; [|done].
    apply startswith_prefix in H as [t ->]. by exists [], t.
  - intros [H | H].
    + apply startswith_prefix in H as [t ->]. by exists [], t.
    + destruct (IH H) as (a & b & ->). by exists (c :: a), b.
Qed.

Lemma contains_occurrences (s sub : pystr) :
  contains s sub = true <-> 1 <= occurrences s sub.
Proof.
  induction s as [|c s IH]; simpl.
  - destruct (startswith [] sub); simpl; split; (done || lia).
  - destruct (startswith (c :: s) sub); simpl; [split; (done || lia)|].
    exact IH.
Qed.

Lemma occurrences_app_r (a s sub : pystr) :
  occurrences s sub <= occurrences (a ++ s) sub.
Proof.
  induction a as [|c a IH]; simpl; lia.
Qed.

Lemma occurrences_cons (x : N) (s sub : pystr) :
  occurrences (x :: s) sub =
  (if startswith (x :: s) sub then 1 else 0) + occurrences s sub.
Proof. reflexivity. Qed.

Lemma occurrences_two (a sub b c : pystr) :
  sub <> [] ->
  2 <= occurrences (a ++ sub ++ b ++ sub ++ c) sub.
Proof.
  intros Hne.
  etransitivity; [|apply occurrences_app_r].
  destruct sub as [|d sub]; [done|].
  change ((d :: sub) ++ b ++ (d :: sub) ++ c)
    with (d :: (sub ++ b ++ (d :: sub) ++ c)).
  rewrite occurrences_cons.
  change (d :: (sub ++ b ++ (d :: sub) ++ c))
    with ((d :: sub) ++ b ++ (d :: sub) ++ c).
  rewrite startswith_app.
  enough (1 <= occurrences (sub ++ b ++ (d :: sub) ++ c) (d :: sub)) by lia.
  apply contains_occurrences.
  rewrite (app_assoc sub b). apply contains_app.
Qed.

Lemma endswith_suffix (s suf : pystr) :
  endswith s suf = true <-> suf `suffix_of` s.
Proof.
  unfold endswith. rewrite andb_true_iff, Nat.leb_le, bool_decide_eq_true.
  split.
  - intros [_ H]. exists (take (length s - length suf) s).
    rewrite <- H at 2. symmetry. apply take_drop.
  - intros [k ->]. rewrite length_app. split; [lia|].
    replace (length k + length suf - length suf) with (length k) by lia.
    by rewrite drop_app_length.
Qed.

Lemma endswith_app (s suf : pystr) : endswith (s ++ suf) suf = true.
Proof. apply endswith_suffix. by exists s. Qed.

End PyStrFacts.

Import PyStrFacts.

(** ** Symbol resolution *)

Lemma allow_list_no_suffix (token : pystr) :
  token ∈ allow_list -> has_exchange_suffix token = false.
Proof.
  unfold allow_list. rewrite !elem_of_cons, elem_of_nil.
  intros H. repeat destruct H as [-> | H]; try done.
Qed.

(** C5. Symbol resolution is a total function of the token alone: a token
    that ends in ".NS" or ".BO" is returned unchanged, a token of the
    allow-list (none of which carries a suffix) gets ".NS" appended, and
    every other token is returned unchanged. *)
Theorem resolve_symbol_spec (token : pystr) :
  ((lit ".NS" `suffix_of` token \/ lit ".BO" `suffix_of` token) ->
     resolve_symbol token = token) /\
  (token ∈ allow_list ->
     has_exchange_suffix token = false /\
     resolve_symbol token = token ++ lit ".NS") /\
  (token ∉ allow_list -> resolve_symbol token = token).
Proof.
  unfold resolve_symbol. split; [|split].
  - intros H.
    assert (has_exchange_suffix token = true) as ->; [|done].
    unfold has_exchange_suffix. apply orb_true_iff.
    destruct H as [H | H]; [left | right]; by apply endswith_suffix.
  - intros H. rewrite (allow_list_no_suffix _ H). simpl.
    by rewrite bool_decide_eq_true_2.
  - intros H. destruct (has_exchange_suffix token); simpl; [done|].
    by rewrite bool_decide_eq_false_2.
Qed.

Lemma resolve_symbol_spec_witness :
  ((lit ".BO" `suffix_of` lit "INFY.BO") /\
   resolve_symbol (lit "INFY.BO") = lit "INFY.BO") /\
  (lit "RELIANCE" ∈ allow_list /\
   resolve_symbol (lit "RELIANCE") = lit "RELIANCE.NS") /\
  ((lit "AAPL" ∉ allow_list) /\ resolve_symbol (lit "AAPL") = lit "AAPL").
Proof.
  assert (H1 : lit ".BO" `suffix_of` lit "INFY.BO") by (by exists (lit "INFY")).
  assert (H2 : lit "RELIANCE" ∈ allow_list) by (by apply (bool_decide_unpack _)).
  assert (H3 : lit "AAPL" ∉ allow_list) by (by apply (bool_decide_unpack _)).
  split; [|split].
  - split; [exact H1|].
    exact (proj1 (resolve_symbol_spec (lit "INFY.BO")) (or_intror H1)).
  - split; [exact H2|].
    exact (proj2 (proj1 (proj2 (resolve_symbol_spec (lit "RELIANCE"))) H2)).
  - split; [exact H3|].
    exact (proj2 (proj2 (resolve_symbol_spec (lit "AAPL"))) H3).
Defined.

(** ** get_stock_data *)

Section FetchFacts.

Variable yf : provider.

Lemma failure_success (msg : pystr) :
  failure msg !! "success" = Some (FBool false).
Proof. reflexivity. Qed.

Lemma failure_error (msg : pystr) : failure msg !! "error" = Some (FStr msg).
Proof. reflexivity. Qed.

Lemma success_success (info : quote) (h : DataFrame) :
  success info h !! "success" = Some (FBool true).
Proof. reflexivity. Qed.

Lemma success_info (info : quote) (h : DataFrame) :
  success info h !! "info" = Some (FInfo info).
Proof. reflexivity. Qed.

Lemma success_history (info : quote) (h : DataFrame) :
  success info h !! "history" = Some (FHistory h).
Proof. reflexivity. Qed.

Lemma info_unusable_iff (info : option quote) :
  info_unusable info = true <->
  forall d, info = Some d -> d !! "regularMarketPrice" = None.
Proof.
  destruct info as [d|]; simpl; [|split; [intros _ d' H; discriminate | done]].
  rewrite orb_true_iff, negb_true_iff, bool_decide_eq_true, bool_decide_eq_false.
  rewrite <- eq_None_not_Some. split.
  - intros [-> | H] d' [= <-]; [apply lookup_empty | done].
  - intros H. right. by apply H.
Qed.

Lemma df_empty_false (h : DataFrame) :
  df_empty h = false <-> df_index h <> [] /\ df_columns h <> [].
Proof.
  unfold df_empty. destruct (df_index h), (df_columns h); simpl; split;
    try done; intros [? ?]; done.
Qed.

(** The dict [fetch] returns, by the outcome of the provider's lookups. *)
Lemma fetch_cases (symbol : pystr) :
  match ticker_info yf (resolve_symbol symbol) with
  | Raise e => fetch yf symbol = Raise e
  | Ok info =>
      if info_unusable info then
        fetch yf symbol =
          Ok (failure (if bool_decide (symbol = resolve_symbol symbol)
                       then no_data_hint (resolve_symbol symbol)
                       else no_data_plain))
      else
        match ticker_history yf (resolve_symbol symbol) with
        | Raise e => fetch yf symbol = Raise e
        | Ok h =>
            fetch yf symbol =
              Ok (if df_empty h then failure (lit "No historical data available")
                  else success (default ∅ info) h)
        end
  end.
Proof.
  unfold fetch.
  destruct (ticker_info yf (resolve_symbol symbol)) as [info|e]; simpl; [|done].
  destruct (info_unusable info); [by case_bool_decide|].
  destruct (ticker_history yf (resolve_symbol symbol)) as [h|e]; simpl; [|done].
  by destruct (df_empty h).
Qed.

End FetchFacts.

(** The provider is only ever asked about the resolved symbol. *)
Lemma get_stock_data_lookup (yf yf' : provider) (symbol : pystr) :
  ticker_info yf (resolve_symbol symbol) = ticker_info yf' (resolve_symbol symbol) ->
  ticker_history yf (resolve_symbol symbol)
    = ticker_history yf' (resolve_symbol symbol) ->
  get_stock_data yf symbol = get_stock_data yf' symbol.
Proof.
  intros Hinfo Hhist. unfold get_stock_data, fetch. by rewrite Hinfo, Hhist.
Qed.

(** C7. [get_stock_data] never raises: for every symbol it returns a dict,
    and when a provider lookup (the metadata lookup, or the history lookup
    made once the metadata is usable) raises, the dict is the failure
    result carrying the message of that exception. *)
Theorem get_stock_data_never_raises (yf : provider) (symbol : pystr) :
  exists d, get_stock_data yf symbol = Ok d /\
    (forall e, ticker_info yf (resolve_symbol symbol) = Raise e ->
       d = failure (exn_str e)) /\
    (forall info e,
       ticker_info yf (resolve_symbol symbol) = Ok info ->
       info_unusable info = false ->
       ticker_history yf (resolve_symbol symbol) = Raise e ->
       d = failure (exn_str e)).
Proof.
  unfold get_stock_data.
  pose proof (fetch_cases yf symbol) as H.
  destruct (ticker_info yf (resolve_symbol symbol)) as [info|e].
  - destruct (info_unusable info) eqn:Hu.
    + rewrite H. eexists. split; [done|]. split; [done|].
      intros info' e' [= <-]. congruence.
    + destruct (ticker_history yf (resolve_symbol symbol)) as [h|e]; rewrite H.
      * eexists. split; [done|]. split; done.
      * eexists. split; [done|]. split; [done|]. by intros ? ? _ _ [= <-].
  - rewrite H. eexists. split; [done|]. split; [by intros ? [= <-]|done].
Qed.

Lemma get_stock_data_never_raises_witness :
  get_stock_data Fixtures.yf_down (lit "AAPL")
    = Ok (failure (lit "connection refused")) /\
  get_stock_data (Fixtures.yf_history_down Fixtures.price_only) (lit "AAPL")
    = Ok (failure (lit "bad period")).
Proof.
  split.
  - destruct (get_stock_data_never_raises Fixtures.yf_down (lit "AAPL"))
      as (d & Hd & Hinfo & _).
    rewrite Hd. f_equal. exact (Hinfo _ eq_refl).
  - destruct (get_stock_data_never_raises
                (Fixtures.yf_history_down Fixtures.price_only) (lit "AAPL"))
      as (d & Hd & _ & Hhist).
    rewrite Hd. f_equal. exact (Hhist _ _ eq_refl eq_refl eq_refl).
Defined.

(** C9. Every value returned by [get_stock_data] is a dict with a boolean
    'success'; when it is False the dict has an 'error' string, and when it
    is True the dict has the 'info' dict (with its live price field) and a
    'history' frame that is not empty. *)
Theorem get_stock_data_shape (yf : provider) (symbol : pystr) :
  exists d, get_stock_data yf symbol = Ok d /\
    ((d !! "success" = Some (FBool false) /\
      exists msg, d !! "error" = Some (FStr msg)) \/
     (d !! "success" = Some (FBool true) /\
      exists info h,
        d !! "info" = Some (FInfo info) /\
        d !! "history" = Some (FHistory h) /\
        is_Some (info !! "regularMarketPrice") /\
        df_index h <> [] /\ df_columns h <> [])).
Proof.
  unfold get_stock_data.
  pose proof (fetch_cases yf symbol) as H.
  destruct (ticker_info yf (resolve_symbol symbol)) as [info|e].
  - destruct (info_unusable info) eqn:Hu.
    + rewrite H. eexists. split; [done|]. left.
      split; [apply failure_success | eexists; apply failure_error].
    + destruct (ticker_history yf (resolve_symbol symbol)) as [h|e]; rewrite H.
      * destruct (df_empty h) eqn:He.
        { eexists. split; [done|]. left.
          split; [apply failure_success | eexists; apply failure_error]. }
        eexists. split; [done|]. right.
        split; [apply success_success|].
        exists (default ∅ info), h.
        split; [apply success_info|]. split; [apply success_history|].
        apply df_empty_false in He. split; [|done].
        destruct info as [d|]; [|done]. simpl in *.
        apply orb_false_iff in Hu as [_ Hu].
        apply negb_false_iff, bool_decide_eq_true in Hu. done.
      * eexists. split; [done|]. left.
        split; [apply failure_success | eexists; apply failure_error].
  - rewrite H. eexists. split; [done|]. left.
    split; [apply failure_success | eexists; apply failure_error].
Qed.

Lemma no_data_hint_mentions (symbol : pystr) :
  contains (no_data_hint symbol) hint_text = true /\
  contains (no_data_hint symbol) (lit ".NS") = true /\
  contains (no_data_hint symbol) (lit ".BO") = true.
Proof.
  unfold no_data_hint. split; [|split].
  - rewrite <- (app_nil_r hint_text) at 1. rewrite (app_assoc _ symbol).
    apply contains_app.
  - rewrite (app_assoc _ symbol).
    change hint_text with
      (lit ". If this is an Indian stock, try adding " ++ lit ".NS"
       ++ lit " (for NSE) or .BO (for BSE) to the symbol.").
    rewrite (app_assoc _ (lit ". If this is an Indian stock, try adding ")).
    apply contains_app.
  - rewrite (app_assoc _ symbol).
    change hint_text with
      (lit ". If this is an Indian stock, try adding .NS (for NSE) or "
       ++ lit ".BO" ++ lit " (for BSE) to the symbol.").
    rewrite (app_assoc _ (lit ". If this is an Indian stock, try adding .NS (for NSE) or ")).
    apply contains_app.
Qed.

(** C6, as the code has it. When the metadata lookup returns nothing usable
    (None, or a dict without the live price field), [get_stock_data]
    returns the failure result; its message carries the hint naming the
    suffixes .NS and .BO exactly when the resolver left the token
    unchanged, and is the plain "No data available for this symbol" text
    when the resolver appended a suffix. *)
Theorem no_data_error (yf : provider) (token : pystr) (info : option quote) :
  ticker_info yf (resolve_symbol token) = Ok info ->
  (forall d, info = Some d -> d !! "regularMarketPrice" = None) ->
  (resolve_symbol token = token ->
     get_stock_data yf token
       = Ok (failure (lit "No data available for " ++ token ++ hint_text)) /\
     mentions_suffix (lit "No data available for " ++ token ++ hint_text) = true) /\
  (resolve_symbol token <> token ->
     get_stock_data yf token = Ok (failure no_data_plain) /\
     mentions_suffix no_data_plain = false).
Proof.
  intros Hinfo Hun. apply info_unusable_iff in Hun.
  unfold get_stock_data.
  pose proof (fetch_cases yf token) as H.
  rewrite Hinfo, Hun in H. rewrite H. split.
  - intros Heq. rewrite Heq, bool_decide_eq_true_2 by done.
    split; [done|]. unfold mentions_suffix.
    destruct (no_data_hint_mentions token) as (_ & Hns & _).
    unfold no_data_hint in Hns. by rewrite Hns.
  - intros Hne. rewrite bool_decide_eq_false_2 by done. split; [done|].
    by vm_compute.
Qed.

Lemma no_data_error_witness :
  get_stock_data (Fixtures.yf_of (Some ∅) Fixtures.one_day) (lit "FOO")
    = Ok (failure (lit "No data available for FOO. If this is an Indian stock, try adding .NS (for NSE) or .BO (for BSE) to the symbol.")) /\
  get_stock_data (Fixtures.yf_of None Fixtures.one_day) (lit "TCS")
    = Ok (failure no_data_plain).
Proof.
  split.
  - refine (proj1 (proj1 (no_data_error (Fixtures.yf_of (Some ∅) Fixtures.one_day)
                            (lit "FOO") (Some ∅) eq_refl _) eq_refl)).
    intros d [= <-]. apply lookup_empty.
  - refine (proj1 (proj2 (no_data_error (Fixtures.yf_of None Fixtures.one_day)
                            (lit "TCS") None eq_refl _) _)).
    + intros d H. discriminate H.
    + by vm_compute.
Defined.

(** C6 as stated fails: RELIANCE needs suffix-guessing (the resolver turns
    it into RELIANCE.NS), and with no usable metadata the error returned
    mentions neither .NS nor .BO. *)
Lemma guessed_token_gets_no_hint :
  resolve_symbol (lit "RELIANCE") = lit "RELIANCE.NS" /\
  exists msg,
    get_stock_data (Fixtures.yf_of (Some ∅) Fixtures.one_day) (lit "RELIANCE")
      = Ok (failure msg) /\
    contains msg (lit ".NS") = false /\ contains msg (lit ".BO") = false.
Proof.
  split; [reflexivity|].
  exists no_data_plain. split; [|split]; by vm_compute.
Qed.

(** ** Numeric formatting *)

Section NumberFacts.

Local Open Scope Z_scope.

Lemma digit_is_digit (d : N) : (d < 10)%N -> is_digit (digit d).
Proof. unfold is_digit, digit. lia. Qed.

Lemma chars_of_uint_digits (u : Decimal.uint) :
  Forall is_digit (chars_of_uint u).
Proof.
  induction u; simpl; constructor; try done; by apply digit_is_digit.
Qed.

Lemma chars_of_uint_nil (u : Decimal.uint) :
  chars_of_uint u = [] -> u = Decimal.Nil.
Proof. by destruct u. Qed.

Lemma str_of_N_digits (n : N) : Forall is_digit (str_of_N n) /\ str_of_N n <> [].
Proof.
  split; [apply chars_of_uint_digits|].
  intros H. apply chars_of_uint_nil in H. destruct n as [|p]; [done|].
  by apply (DecimalPos.Unsigned.to_uint_nonnil p).
Qed.

(** [str_of_N] writes the numeral of its argument. *)
Lemma str_of_N_numeral (n : N) :
  exists u, str_of_N n = chars_of_uint u /\ N.of_uint u = n.
Proof. exists (N.to_uint n). split; [done|]. apply DecimalN.Unsigned.of_to. Qed.

Lemma two_digits_digits (n : Z) :
  0 <= n < 100 -> Forall is_digit (two_digits n).
Proof.
  intros Hn. unfold two_digits.
  assert (0 <= n / 10 < 10) by (split; [apply Z.div_pos | apply Z.div_lt_upper_bound]; lia).
  assert (0 <= n mod 10 < 10) by (apply Z.mod_pos_bound; lia).
  repeat constructor; apply digit_is_digit; lia.
Qed.

Lemma round_half_even_nonneg (n d : Z) : 0 <= n -> 0 < d -> 0 <= round_half_even n d.
Proof.
  intros Hn Hd. unfold round_half_even.
  assert (0 <= n / d) by (apply Z.div_pos; lia).
  destruct (2 * (n mod d) ?= d); [destruct (Z.even (n / d))|..]; lia.
Qed.

Lemma hundredths_nonneg (m : positive) (e : Z) : 0 <= hundredths m e.
Proof.
  unfold hundredths. destruct (0 <=? e) eqn:He.
  - apply Z.leb_le in He. assert (0 < 2 ^ e) by (apply Z.pow_pos_nonneg; lia). nia.
  - apply Z.leb_gt in He. apply round_half_even_nonneg; [lia|].
    apply Z.pow_pos_nonneg; lia.
Qed.

Lemma fixed2_two_decimals (h : Z) : 0 <= h -> two_decimals (fixed2 false h).
Proof.
  intros Hh. unfold fixed2, two_decimals.
  assert (H100 : 0 <= h mod 100 < 100) by (apply Z.mod_pos_bound; lia).
  assert (Hq : 0 <= h / 100) by (apply Z.div_pos; lia).
  pose proof (two_digits_digits _ H100) as Hd. unfold two_digits in *.
  inversion Hd as [|? ? Hd1 Hd']; subst. inversion Hd' as [|? ? Hd2 _]; subst.
  eexists _, _, _. split; [reflexivity|].
  assert (str_of_Z (h / 100) = str_of_N (Z.to_N (h / 100))) as ->.
  { unfold str_of_Z. by destruct (h / 100). }
  destruct (str_of_N_digits (Z.to_N (h / 100))). done.
Qed.

Lemma format_2f_two_decimals (q : spec_float) :
  finite_nonneg q -> two_decimals (format_2f q).
Proof.
  destruct q as [s|s| |s m e]; simpl; try done; intros ->.
  - by apply fixed2_two_decimals.
  - apply fixed2_two_decimals, hundredths_nonneg.
Qed.

Lemma binary_round_aux_sign (sx : bool) (mx ex : Z) (lx : location) :
  match binary_round_aux prec emax sx mx ex lx with
  | S754_zero s | S754_finite s _ _ | S754_infinity s => s = sx
  | S754_nan => True
  end.
Proof.
  unfold binary_round_aux.
  destruct (shr_fexp prec emax mx ex lx) as [mrs' e'].
  destruct (shr_fexp prec emax _ e' loc_Exact) as [mrs'' e''].
  destruct (shr_m mrs''); [done| |done].
  by destruct (e'' <=? emax - prec).
Qed.

Lemma SFdiv_finite_sign (s1 s2 : bool) (m1 m2 : positive) (e1 e2 : Z) :
  match SFdiv prec emax (S754_finite s1 m1 e1) (S754_finite s2 m2 e2) with
  | S754_zero s | S754_finite s _ _ | S754_infinity s => s = xorb s1 s2
  | S754_nan => True
  end.
Proof.
  unfold SFdiv.
  destruct (SFdiv_core_binary prec emax (Z.pos m1) e1 (Z.pos m2) e2) as [[mz ez] lz].
  apply binary_round_aux_sign.
Qed.

Lemma int_truediv_nonneg (a b : Z) (q : spec_float) :
  0 < a -> 0 < b -> int_truediv a b = Ok q -> finite_nonneg q.
Proof.
  intros Ha Hb. unfold int_truediv.
  destruct (b =? 0) eqn:Hb0; [done|].
  destruct a as [|pa|pa]; try lia. destruct b as [|pb|pb]; try lia. simpl exact_int.
  pose proof (SFdiv_finite_sign false false pa pb 0 0) as Hs.
  destruct (SFdiv prec emax _ _) as [s|s| |s m e]; simpl; try done;
    by intros [= <-].
Qed.

Lemma float_of_int_pos (c : Z) (fb : spec_float) :
  0 < c -> float_of_int c = Ok fb ->
  is_zero fb = true \/ exists m e, fb = S754_finite false m e.
Proof.
  intros Hc. unfold float_of_int, binary_normalize.
  destruct c as [|p|p]; try lia. unfold binary_round.
  destruct (shl_align _ _ _) as [mz ez].
  pose proof (binary_round_aux_sign false (Z.pos mz) ez loc_Exact) as Hs.
  destruct (binary_round_aux _ _ _ _ _ _) as [s|s| |s m e]; simpl; try done;
    intros [= <-]; [by left | right; subst; eauto].
Qed.

Lemma float_ge_int_pos (f : spec_float) (c : Z) :
  0 < c -> float_ge_int f c = true ->
  f = S754_infinity false \/ exists m e, f = S754_finite false m e.
Proof.
  intros Hc. destruct f as [s|s| |s m e]; simpl; try done.
  - intros H. apply Z.geb_le in H. lia.
  - destruct s; [done|]. by left.
  - destruct s; [|by eauto]. simpl.
    destruct (0 <=? e) eqn:He; intros H; apply Z.geb_le in H.
    + apply Z.leb_le in He. assert (0 < 2 ^ e) by (apply Z.pow_pos_nonneg; lia). nia.
    + apply Z.leb_gt in He. assert (0 < 2 ^ (- e)) by (apply Z.pow_pos_nonneg; lia). nia.
Qed.

Lemma num_truediv_nonneg (v : pyval) (c : Z) (q : spec_float) :
  0 < c -> num_ge v c = true -> num_truediv v c = Ok q ->
  is_finite q = true -> finite_nonneg q.
Proof.
  intros Hc Hge Hq Hfin. destruct v as [|b|z|f| | |]; simpl in *; try done.
  - apply Z.geb_le in Hge. eapply int_truediv_nonneg; [| |done]; lia.
  - apply Z.geb_le in Hge. eapply int_truediv_nonneg; [| |done]; lia.
  - unfold float_truediv_int in Hq.
    destruct (float_of_int c) as [fb|e] eqn:Hfb; simpl in Hq; [|done].
    destruct (float_of_int_pos _ _ Hc Hfb) as [Hz | (m2 & e2 & ->)].
    + by rewrite Hz in Hq.
    + simpl in Hq. injection Hq as <-.
      destruct (float_ge_int_pos _ _ Hc Hge) as [-> | (m1 & e1 & ->)]; [done|].
      pose proof (SFdiv_finite_sign false false m1 m2 e1 e2) as Hs.
      by destruct (SFdiv prec emax _ _).
Qed.

End NumberFacts.

(** ** format_stock_message *)

Section FormatFacts.

Variable rt : runtime.

Lemma bound_length_short (message : pystr) :
  len message <= 1000 -> bound_length message = message.
Proof.
  intros H. unfold bound_length.
  destruct (1000 <? len message) eqn:E; [|done].
  apply Nat.ltb_lt in E. lia.
Qed.

Lemma bound_length_long (message : pystr) :
  1000 < len message ->
  bound_length message = slice_to 997 message ++ lit "..." /\
  len (bound_length message) = 1000.
Proof.
  intros H. unfold bound_length.
  apply Nat.ltb_lt in H as E. rewrite E. split; [done|].
  unfold len, slice_to in *. rewrite length_app, length_take.
  change (length (lit "...")) with 3. lia.
Qed.

Lemma bound_length_le (message : pystr) : len (bound_length message) <= 1000.
Proof.
  destruct (le_lt_dec (len message) 1000) as [H|H].
  - by rewrite bound_length_short.
  - destruct (bound_length_long _ H) as [_ ->]. lia.
Qed.

(** [format_stock_message] returns exactly when the composition does. *)
Lemma format_stock_message_compose (symbol : pystr) (stock_data : stock_dict)
    (analysis : pyval) :
  format_stock_message rt symbol stock_data analysis =
  match compose_message rt symbol stock_data analysis with
  | Ok message => Ok (bound_length message)
  | Raise e => Raise e
  end.
Proof. reflexivity. Qed.

(** With every field absent the composition succeeds, with N/A in each
    numeric slot. *)
Lemma compose_message_all_absent (symbol a : pystr) (info : quote)
    (stock_data : stock_dict) :
  stock_data !! "info" = Some (FInfo info) ->
  info !! "marketCap" = None -> info !! "currentPrice" = None ->
  info !! "previousClose" = None -> info !! "trailingPE" = None ->
  exists cleaned,
    compose_message rt symbol stock_data (VStr a) =
    Ok (header rt symbol ++ nl ++ nl
        ++ emoji_money_bag ++ lit " Current Price: " ++ NA ++ nl
        ++ emoji_chart_up ++ lit " Previous Close: " ++ NA ++ nl
        ++ emoji_chart_yen ++ lit " Market Cap: " ++ NA ++ nl
        ++ emoji_bar_chart ++ lit " P/E Ratio: " ++ NA ++ nl ++ nl
        ++ emoji_memo ++ lit " *Analysis*:" ++ nl
        ++ cleaned ++ nl ++ nl).
Proof.
  intros Hinfo Hcap Hprice Hprev Hpe.
  unfold compose_message, get_info. rewrite Hinfo. simpl.
  unfold get_or_na. rewrite Hcap, Hprice, Hprev, Hpe. simpl. eauto.
Qed.

End FormatFacts.

(** C3. The message returned by [format_stock_message] has at most 1000
    characters; it is the composed message when that has at most 1000
    characters, and otherwise it is the first 997 characters of the
    composed message followed by "...", exactly 1000 characters long. *)
Theorem format_stock_message_length (rt : runtime) (symbol : pystr)
    (stock_data : stock_dict) (analysis : pyval) (out : pystr) :
  format_stock_message rt symbol stock_data analysis = Ok out ->
  len out <= 1000 /\
  exists message,
    compose_message rt symbol stock_data analysis = Ok message /\
    (len message <= 1000 -> out = message) /\
    (1000 < len message ->
       len out = 1000 /\ endswith out (lit "...") = true /\
       out = slice_to 997 message ++ lit "...").
Proof.
  rewrite format_stock_message_compose.
  destruct (compose_message rt symbol stock_data analysis) as [message|e];
    [|done].
  intros [= <-]. split; [apply bound_length_le|].
  exists message. split; [done|]. split.
  - intros H. by apply bound_length_short.
  - intros H. destruct (bound_length_long _ H) as [Heq Hlen]. rewrite Heq.
    split; [|split; [apply endswith_app | done]].
    destruct (bound_length_long _ H) as [<- Hlen']. done.
Qed.

Lemma format_stock_message_length_witness :
  exists out message,
    format_stock_message Fixtures.rt0 (lit "AAPL")
      (success Fixtures.full_quote Fixtures.one_day)
      (VStr (repeat 97%N 2000)) = Ok out /\
    compose_message Fixtures.rt0 (lit "AAPL")
      (success Fixtures.full_quote Fixtures.one_day)
      (VStr (repeat 97%N 2000)) = Ok message /\
    1000 < len message /\ len out = 1000 /\ endswith out (lit "...") = true.
Proof.
  destruct (format_stock_message Fixtures.rt0 (lit "AAPL")
              (success Fixtures.full_quote Fixtures.one_day)
              (VStr (repeat 97%N 2000))) as [out|e] eqn:E;
    [|exfalso; vm_compute in E; discriminate E].
  destruct (format_stock_message_length _ _ _ _ _ E)
    as (_ & message & Hm & _ & Hlong).
  exists out, message. split; [reflexivity|]. split; [exact Hm|].
  assert (Hlen : 1000 < len message).
  { vm_compute in Hm. injection Hm as <-. apply Nat.ltb_lt. by vm_compute. }
  split; [exact Hlen|]. destruct (Hlong Hlen) as (H1 & H2 & _).
  split; [exact H1 | exact H2].
Defined.

(** ** Market capitalization *)

Section MarketCapFacts.

Variable rt : runtime.

Local Open Scope Z_scope.

Lemma num_ge_is_number (v : pyval) (c : Z) : num_ge v c = true -> is_number v = true.
Proof. by destruct v. Qed.

(** One branch of lines 228-233: the quotient by the unit, with two
    decimals, between "$" and the unit's letter. *)
Lemma format_market_cap_trillion (v : pyval) (q : spec_float) :
  num_ge v 1000000000000 = true ->
  num_truediv v 1000000000000 = Ok q ->
  format_market_cap rt v = Ok (lit "$" ++ format_2f q ++ lit "T").
Proof.
  intros Hge Hq. unfold format_market_cap.
  by rewrite (num_ge_is_number _ _ Hge), Hge, Hq.
Qed.

Lemma format_market_cap_billion (v : pyval) (q : spec_float) :
  num_ge v 1000000000000 = false ->
  num_ge v 1000000000 = true ->
  num_truediv v 1000000000 = Ok q ->
  format_market_cap rt v = Ok (lit "$" ++ format_2f q ++ lit "B").
Proof.
  intros Hlt Hge Hq. unfold format_market_cap.
  by rewrite (num_ge_is_number _ _ Hge), Hlt, Hge, Hq.
Qed.

Lemma num_ge_mono (v : pyval) (c c' : Z) :
  c' <= c -> num_ge v c = true -> num_ge v c' = true.
Proof.
  intros Hc. destruct v as [|b|z|f| | |]; simpl; try done.
  - rewrite !Z.geb_le. lia.
  - rewrite !Z.geb_le. lia.
  - destruct f as [s|s| |s m e]; simpl; try done.
    + rewrite !Z.geb_le. lia.
    + destruct (0 <=? e) eqn:He; rewrite !Z.geb_le; [lia|].
      assert (0 <= 2 ^ (- e)) by (apply Z.pow_nonneg; lia). nia.
Qed.

Lemma format_market_cap_million (v : pyval) (q : spec_float) :
  num_ge v 1000000000 = false ->
  num_ge v 1000000 = true ->
  num_truediv v 1000000 = Ok q ->
  format_market_cap rt v = Ok (lit "$" ++ format_2f q ++ lit "M").
Proof.
  intros Hlt Hge Hq. unfold format_market_cap.
  rewrite (num_ge_is_number _ _ Hge), Hlt, Hge, Hq.
  destruct (num_ge v 1000000000000) eqn:Ht; [|done].
  apply (num_ge_mono _ _ 1000000000) in Ht; [congruence|lia].
Qed.

(** The text of the market cap in the composed message. *)
Lemma compose_message_market_cap (symbol : pystr) (stock_data : stock_dict)
    (analysis : pyval) (info : quote) (message : pystr) :
  stock_data !! "info" = Some (FInfo info) ->
  compose_message rt symbol stock_data analysis = Ok message ->
  exists cap before after,
    format_market_cap rt (get_or_na info "marketCap") = Ok cap /\
    message = before ++ emoji_chart_yen ++ lit " Market Cap: " ++ cap ++ nl ++ after.
Proof.
  intros Hinfo H. unfold compose_message, get_info in H. rewrite Hinfo in H.
  apply bind_ok in H as (info' & [= <-] & H).
  apply bind_ok in H as (cap & Hcap & H).
  apply bind_ok in H as (price & _ & H).
  apply bind_ok in H as (prev & _ & H).
  apply bind_ok in H as (pe & _ & H).
  apply bind_ok in H as (cleaned & _ & H).
  apply Ok_inj in H. rewrite <- H. exists cap.
  exists (header rt symbol ++ nl ++ nl
          ++ emoji_money_bag ++ lit " Current Price: " ++ price ++ nl
          ++ emoji_chart_up ++ lit " Previous Close: " ++ prev ++ nl).
  eexists. split; [done|]. rewrite <- !app_assoc. reflexivity.
Qed.

End MarketCapFacts.

(** X28. The numeric branches of the market-cap rendering.  A market
    capitalization [v] that is a number at or above a threshold, and whose
    quotient by the unit is a finite float, is rendered as "$", the
    quotient with two decimal places, and the letter of the first unit
    reached: T from 10^12, B from 10^9, M from 10^6 (2_500_000_000_000
    gives "$2.50T", 3_400_000_000 "$3.40B", 7_000_000 "$7.00M").  An absent
    value is rendered as "N/A", the default of [info.get]. *)
Theorem market_cap_numeric (rt : runtime) :
  (forall v q,
     num_ge v 1000000000000 = true ->
     num_truediv v 1000000000000 = Ok q -> is_finite q = true ->
     format_market_cap rt v = Ok (lit "$" ++ format_2f q ++ lit "T") /\
     two_decimals (format_2f q)) /\
  (forall v q,
     num_ge v 1000000000000 = false -> num_ge v 1000000000 = true ->
     num_truediv v 1000000000 = Ok q -> is_finite q = true ->
     format_market_cap rt v = Ok (lit "$" ++ format_2f q ++ lit "B") /\
     two_decimals (format_2f q)) /\
  (forall v q,
     num_ge v 1000000000 = false -> num_ge v 1000000 = true ->
     num_truediv v 1000000 = Ok q -> is_finite q = true ->
     format_market_cap rt v = Ok (lit "$" ++ format_2f q ++ lit "M") /\
     two_decimals (format_2f q)) /\
  format_market_cap rt (VInt 2500000000000) = Ok (lit "$2.50T") /\
  format_market_cap rt (VInt 3400000000) = Ok (lit "$3.40B") /\
  format_market_cap rt (VInt 7000000) = Ok (lit "$7.00M") /\
  (forall info : quote,
     info !! "marketCap" = None ->
     format_market_cap rt (get_or_na info "marketCap") = Ok NA).
Proof.
  split; [|split; [|split]].
  - intros v q Hge Hq Hfin. split; [by apply format_market_cap_trillion|].
    apply format_2f_two_decimals.
    by apply (num_truediv_nonneg v 1000000000000%Z).
  - intros v q Hlt Hge Hq Hfin. split; [by apply format_market_cap_billion|].
    apply format_2f_two_decimals.
    by apply (num_truediv_nonneg v 1000000000%Z).
  - intros v q Hlt Hge Hq Hfin. split; [by apply format_market_cap_million|].
    apply format_2f_two_decimals.
    by apply (num_truediv_nonneg v 1000000%Z).
  - repeat split.
    intros info H. unfold get_or_na. by rewrite H.
Qed.

Lemma market_cap_numeric_witness :
  (format_market_cap Fixtures.rt0 (VInt 1234567890123) = Ok (lit "$1.23T") /\
   two_decimals (lit "1.23")) /\
  (format_market_cap Fixtures.rt0 (VInt 999999999999) = Ok (lit "$1000.00B") /\
   two_decimals (lit "1000.00")) /\
  (format_market_cap Fixtures.rt0 (VFloat (S754_finite false 4503599627370496 (-32))) = Ok (lit "$1.05M") /\
   two_decimals (lit "1.05")) /\
  format_market_cap Fixtures.rt0 (get_or_na ∅ "marketCap") = Ok NA.
Proof.
  destruct (market_cap_numeric Fixtures.rt0)
    as (HT & HB & HM & _ & _ & _ & Habsent).
  split; [|split; [|split]].
  - exact (HT (VInt 1234567890123) (S754_finite false 5559999489921522 (-52))
             eq_refl eq_refl eq_refl).
  - exact (HB (VInt 999999999999) (S754_finite false 8796093022199204 (-43))
             eq_refl eq_refl eq_refl eq_refl).
  - exact (HM (VFloat (S754_finite false 4503599627370496 (-32))) (S754_finite false 4722366482869645 (-52))
             eq_refl eq_refl eq_refl eq_refl).
  - exact (Habsent ∅ (lookup_empty _)).
Defined.

(** C4. The claim fails on a market capitalization that is present and is
    None, as the provider reports a figure it does not have: None is no
    number, so lines 227-233 leave it alone and the message reads
    "Market Cap: None" where the claim has "N/A".  The three sibling
    fields, lines 237, 240 and 243, do map the same None to "N/A". *)
Theorem market_cap_none_is_not_NA :
  let info : quote := {[ "regularMarketPrice" := VInt 100;
                         "currentPrice" := VNone;
                         "previousClose" := VNone;
                         "marketCap" := VNone;
                         "trailingPE" := VNone ]} in
  is_number VNone = false /\
  format_market_cap Fixtures.rt0 (get_or_na info "marketCap") = Ok (lit "None") /\
  format_price (get_or_na info "currentPrice") = Ok NA /\
  format_price (get_or_na info "previousClose") = Ok NA /\
  format_ratio (get_or_na info "trailingPE") = Ok NA /\
  (exists message,
     format_stock_message Fixtures.rt0 (lit "AAPL")
       (success info Fixtures.one_day) (VStr (lit "fine")) = Ok message /\
     contains message (lit "Current Price: N/A") = true /\
     contains message (lit "Previous Close: N/A") = true /\
     contains message (lit "P/E Ratio: N/A") = true /\
     contains message (lit "Market Cap: None") = true /\
     contains message (lit "Market Cap: N/A") = false).
Proof.
  cbv zeta. do 5 (split; [by vm_compute|]).
  eexists. split; [by vm_compute|]. repeat split; by vm_compute.
Qed.

(** ** The monad of effects *)

Section IoFacts.

Context {A B : Type}.

Lemma io_bind_ok (c : io A) (k : A -> io B) (st st' : state) (a : A) :
  c st = (Ok a, st') -> (c ≫= k) st = k a st'.
Proof. intros H. unfold mbind, io_bind. by rewrite H. Qed.

Lemma io_bind_raise (c : io A) (k : A -> io B) (st st' : state) (e : exn) :
  c st = (Raise e, st') -> (c ≫= k) st = (Raise e, st').
Proof. intros H. unfold mbind, io_bind. by rewrite H. Qed.

Lemma io_bind_lift_ok (r : result A) (k : A -> io B) (st : state) (a : A) :
  r = Ok a -> (lift r ≫= k) st = k a st.
Proof. by intros ->. Qed.

Lemma io_bind_lift_raise (r : result A) (k : A -> io B) (st : state) (e : exn) :
  r = Raise e -> (lift r ≫= k) st = (Raise e, st).
Proof. by intros ->. Qed.

Lemma try_except_ok (body : io A) (handler : exn -> io A) (st st' : state) (a : A) :
  body st = (Ok a, st') -> try_except body handler st = (Ok a, st').
Proof. intros H. unfold try_except. by rewrite H. Qed.

Lemma try_except_raise (body : io A) (handler : exn -> io A) (st st' : state)
    (e : exn) :
  body st = (Raise e, st') -> try_except body handler st = handler e st'.
Proof. intros H. unfold try_except. by rewrite H. Qed.

End IoFacts.

(** ** generate_chart *)

Section ChartFacts.

Variable mpl : plotlib.

Lemma fresh_num_not_open (figs : list nat) : fresh_num figs ∉ figs.
Proof.
  assert (H : forall n, n ∈ figs -> n < fresh_num figs).
  { unfold fresh_num. induction figs as [|k figs IH]; intros n Hn.
    - by apply elem_of_nil in Hn.
    - apply elem_of_cons in Hn as [-> | Hn]; simpl; [lia|].
      specialize (IH n Hn). lia. }
  intros Hin. apply H in Hin. lia.
Qed.

Lemma drawing_state_open (st : state) :
  (drawing_state st).1 ∈ figures (drawing_state st).2 /\
  sent (drawing_state st).2 = sent st /\
  analysis_var (drawing_state st).2 = analysis_var st.
Proof.
  unfold drawing_state, plt_clf, plt_figure.
  destruct (figures st) eqn:E; simpl; rewrite ?E; simpl;
    (split; [set_solver | done]).
Qed.

(** A failure of the drawing calls, once the figure exists, is re-raised
    with the cause in its message, and the figure stays open. *)
Lemma generate_chart_render_failure (h : DataFrame) (close : list spec_float)
    (e : exn) (st : state) :
  mpl_use mpl = Ok () -> mpl_add_subplot mpl = Ok () ->
  df_getitem h "Close" = Ok close ->
  mpl_render mpl (df_index h) close = Raise e ->
  generate_chart mpl (FHistory h) st =
    (Raise (Exn PlainException (lit "Failed to generate chart: " ++ exn_str e)),
     (drawing_state st).2).
Proof.
  intros Huse Hsub Hclose Hrender.
  unfold generate_chart, try_except, drawing_state.
  unfold mbind at 1, io_bind. rewrite Huse. simpl.
  unfold mbind at 1, io_bind.
  destruct (plt_clf st) as [[[]|e0] st1] eqn:Hclf.
  2: { unfold plt_clf, plt_figure in Hclf. destruct (figures st); done. }
  unfold mbind at 1, io_bind. unfold plt_figure. simpl.
  unfold mbind at 1, io_bind. rewrite Hsub. simpl.
  unfold mbind at 1, io_bind. rewrite Hclose. simpl.
  unfold mbind at 1, io_bind. by rewrite Hrender.
Qed.

(** So the figure made by [plt.figure()] outlives a failed call. *)
Lemma generate_chart_failure_keeps_figure (h : DataFrame)
    (close : list spec_float) (e : exn) (st : state) :
  mpl_use mpl = Ok () -> mpl_add_subplot mpl = Ok () ->
  df_getitem h "Close" = Ok close ->
  mpl_render mpl (df_index h) close = Raise e ->
  (drawing_state st).1 ∈ figures (generate_chart mpl (FHistory h) st).2.
Proof.
  intros Huse Hsub Hclose Hrender.
  rewrite (generate_chart_render_failure _ _ _ _ Huse Hsub Hclose Hrender).
  apply drawing_state_open.
Qed.

(** On success the figure made by [plt.figure()] is closed again. *)
Lemma generate_chart_success (h : DataFrame) (close : list spec_float)
    (buf : bytes) (st : state) :
  mpl_use mpl = Ok () -> mpl_add_subplot mpl = Ok () ->
  df_getitem h "Close" = Ok close ->
  mpl_render mpl (df_index h) close = Ok buf ->
  exists st',
    generate_chart mpl (FHistory h) st = (Ok buf, st') /\
    ((drawing_state st).1 ∉ figures st') /\
    sent st' = sent st /\ analysis_var st' = analysis_var st.
Proof.
  intros Huse Hsub Hclose Hrender.
  unfold generate_chart, try_except, drawing_state.
  unfold mbind at 1, io_bind. rewrite Huse. simpl.
  unfold mbind at 1, io_bind.
  destruct (plt_clf st) as [[[]|e0] st1] eqn:Hclf.
  2: { unfold plt_clf, plt_figure in Hclf. destruct (figures st); done. }
  assert (sent st1 = sent st /\ analysis_var st1 = analysis_var st) as [Hs Ha].
  { unfold plt_clf, plt_figure in Hclf.
    destruct (figures st); injection Hclf as <-; done. }
  unfold mbind at 1, io_bind. unfold plt_figure. simpl.
  unfold mbind at 1, io_bind. rewrite Hsub. simpl.
  unfold mbind at 1, io_bind. rewrite Hclose. simpl.
  unfold mbind at 1, io_bind. rewrite Hrender. simpl.
  eexists. split; [reflexivity|]. simpl. split; [|done].
  intros Hin. apply list_elem_of_filter in Hin as [Hne _]. done.
Qed.

(** Whatever is raised by [generate_chart] is the wrapped error. *)
Lemma generate_chart_reraises (history : field) (st st' : state) (e' : exn) :
  generate_chart mpl history st = (Raise e', st') ->
  exists e, e' = Exn PlainException (lit "Failed to generate chart: " ++ exn_str e).
Proof.
  unfold generate_chart, try_except.
  match goal with
  | |- context [match ?body with _ => _ end] => destruct body as [[buf|e] st1]
  end; [done|].
  unfold throw, lift. intros [= <- _]. by exists e.
Qed.

(** [generate_chart] changes neither the chat log nor the locals. *)
Lemma generate_chart_frame (history : field) (st st' : state) (r : result bytes) :
  generate_chart mpl history st = (r, st') ->
  sent st' = sent st /\ analysis_var st' = analysis_var st.
Proof.
  unfold generate_chart, try_except.
  unfold mbind at 1, io_bind. unfold lift at 1.
  destruct (mpl_use mpl) as [[]|e]; [|by intros [= _ <-]].
  unfold mbind at 1, io_bind.
  destruct (plt_clf st) as [[[]|e0] st1] eqn:Hclf.
  2: { unfold plt_clf, plt_figure in Hclf. destruct (figures st); done. }
  assert (sent st1 = sent st /\ analysis_var st1 = analysis_var st) as [Hs Ha].
  { unfold plt_clf, plt_figure in Hclf.
    destruct (figures st); injection Hclf as <-; done. }
  unfold mbind at 1, io_bind. unfold plt_figure at 1. simpl.
  unfold mbind at 1, io_bind. unfold lift at 1.
  destruct (mpl_add_subplot mpl) as [[]|e]; [|by intros [= _ <-]].
  unfold mbind at 1, io_bind. unfold lift at 1.
  destruct (index_and_close history) as [xy|e]; [|by intros [= _ <-]].
  unfold mbind at 1, io_bind. unfold lift at 1.
  destruct (mpl_render mpl xy.1 xy.2) as [buf|e]; [|by intros [= _ <-]].
  simpl. by intros [= _ <-].
Qed.

End ChartFacts.

(** C8. The failure path of [generate_chart] does not release the figure:
    when drawing fails on a one-day history, the error is re-raised as
    "Failed to generate chart: <cause>", and figure 2, the one made by
    [plt.figure()], is still open on return, whereas the successful call
    closes it. *)
Theorem generate_chart_leaks_figure :
  generate_chart Fixtures.mpl_broken (FHistory Fixtures.one_day) Fixtures.st0 =
    (Raise (Exn PlainException
              (lit "Failed to generate chart: Image size is too large")),
     {| figures := [1; 2]; sent := []; analysis_var := None |}) /\
  (drawing_state Fixtures.st0).1 = 2 /\
  generate_chart Fixtures.mpl_ok (FHistory Fixtures.one_day) Fixtures.st0 =
    (Ok Fixtures.png, {| figures := [1]; sent := []; analysis_var := None |}).
Proof. split; [|split]; reflexivity. Qed.

(** ** get_perplexity_analysis *)

Section AnalysisFacts.

Variable rt : runtime.
Variable api : analysis_api.

Lemma format_comma_NA :
  format_comma rt (VStr NA) = Raise (Exn ValueError (lit "Cannot specify ',' with 's'.")).
Proof. reflexivity. Qed.

(** An absent market cap makes the f-string of the prompt raise. *)
Lemma build_prompt_absent_market_cap (stock_data : stock_dict) (info : quote) :
  stock_data !! "info" = Some (FInfo info) ->
  info !! "marketCap" = None ->
  build_prompt rt stock_data
  = Raise (Exn ValueError (lit "Cannot specify ',' with 's'.")).
Proof.
  intros Hinfo Hcap. unfold build_prompt, get_info. rewrite Hinfo.
  unfold get_or_na. simpl. rewrite Hcap. reflexivity.
Qed.

(** So does an absent volume. *)
Lemma build_prompt_absent_volume (stock_data : stock_dict) (info : quote)
    (cap : pystr) :
  stock_data !! "info" = Some (FInfo info) ->
  format_comma rt (get_or_na info "marketCap") = Ok cap ->
  info !! "volume" = None ->
  build_prompt rt stock_data
  = Raise (Exn ValueError (lit "Cannot specify ',' with 's'.")).
Proof.
  intros Hinfo Hcap Hvol. unfold build_prompt, get_info. rewrite Hinfo.
  change (mbind ?k (Ok info)) with (k info). cbv beta.
  rewrite Hcap.
  change (mbind ?k (Ok cap)) with (k cap). cbv beta.
  unfold get_or_na. rewrite Hvol. reflexivity.
Qed.

(** The prompt is built before the [try]: its error leaves the function. *)
Lemma get_perplexity_analysis_prompt_raises (stock_data : stock_dict) (e : exn) :
  build_prompt rt stock_data = Raise e ->
  get_perplexity_analysis rt api stock_data = Raise e.
Proof. intros H. unfold get_perplexity_analysis. by rewrite H. Qed.

(** Once the prompt is built, every outcome of the request is a returned
    value: the reply's content, or one of the explanatory texts. *)
Lemma get_perplexity_analysis_returns (stock_data : stock_dict) (prompt : pystr) :
  build_prompt rt stock_data = Ok prompt ->
  get_perplexity_analysis rt api stock_data =
  Ok match request_analysis api prompt with
     | Ok v => v
     | Raise e => analysis_fallback e
     end.
Proof.
  intros H. unfold get_perplexity_analysis. rewrite H. simpl.
  by destruct (request_analysis api prompt).
Qed.

Lemma request_analysis_post_raises (prompt : pystr) (e : exn) :
  http_post api prompt = Raise e -> request_analysis api prompt = Raise e.
Proof. intros H. unfold request_analysis. by rewrite H. Qed.

Lemma request_analysis_bad_status (prompt : pystr) (resp : response) :
  http_post api prompt = Ok resp -> status_code resp <> 200%Z ->
  request_analysis api prompt
  = Ok (VStr (lit "Unable to generate analysis. Error: " ++ text resp)).
Proof.
  intros H Hs. unfold request_analysis. rewrite H. simpl.
  apply Z.eqb_neq in Hs. by rewrite Hs.
Qed.

Lemma analysis_fallback_timeout (msg : pystr) :
  analysis_fallback (Exn Timeout msg)
  = VStr (lit "Unable to generate analysis: Request timed out").
Proof. reflexivity. Qed.

Lemma analysis_fallback_network (msg : pystr) :
  analysis_fallback (Exn RequestException msg)
  = VStr (lit "Unable to generate analysis: Network error - " ++ msg).
Proof. reflexivity. Qed.

End AnalysisFacts.

(** C2. [get_perplexity_analysis] raises on a quote without market
    capitalization: the field is replaced by the text "N/A", which the
    format [:,] of the prompt rejects with ValueError, before the [try]
    that turns errors into explanatory texts is entered. *)
Theorem get_perplexity_analysis_raises_on_NA :
  Fixtures.price_only !! "marketCap" = None /\
  get_or_na Fixtures.price_only "marketCap" = VStr NA /\
  get_perplexity_analysis Fixtures.rt0 (Fixtures.api_of (lit "fine"))
    (success Fixtures.price_only Fixtures.one_day)
  = Raise (Exn ValueError (lit "Cannot specify ',' with 's'.")).
Proof.
  split; [reflexivity|]. split; [reflexivity|].
  apply get_perplexity_analysis_prompt_raises.
  by apply (build_prompt_absent_market_cap _ _ Fixtures.price_only).
Qed.

(** ** handle_stock *)

Section HandleFacts.

Variable rt : runtime.
Variable yf : provider.
Variable mpl : plotlib.
Variable api : analysis_api.
Variable chat : transport.

Lemma tg_ok (r : tg_request) (st : state) :
  tg_send chat r = Ok () ->
  tg chat r st = (Ok (), {| figures := figures st; sent := (r, true) :: sent st;
                            analysis_var := analysis_var st |}).
Proof. intros H. unfold tg. by rewrite H. Qed.

Lemma read_analysis_unbound (st : state) :
  analysis_var st = None -> read_analysis st = (Raise unbound_analysis, st).
Proof. intros H. unfold read_analysis. by rewrite H. Qed.

Lemma read_analysis_bound (st : state) (v : pyval) :
  analysis_var st = Some v -> read_analysis st = (Ok v, st).
Proof. intros H. unfold read_analysis. by rewrite H. Qed.

(** The fetch succeeded: [process] runs the inner [try]. *)
Lemma process_success (symbol : pystr) (info : quote) (h : DataFrame) (st : state) :
  get_stock_data yf symbol = Ok (success info h) ->
  process rt yf mpl api chat symbol st =
  try_except (chart_and_send rt mpl api chat symbol (success info h))
             (text_fallback rt chat symbol (success info h)) st.
Proof.
  intros Hdata. unfold process.
  rewrite (io_bind_lift_ok _ _ _ _ Hdata).
  by rewrite (io_bind_lift_ok _ _ _ true).
Qed.

(** When the chart cannot be made, [analysis] is still unbound in the
    handler, and reading it raises. *)
Lemma process_chart_failure (symbol : pystr) (info : quote) (h : DataFrame)
    (e : exn) (st st' : state) :
  get_stock_data yf symbol = Ok (success info h) ->
  analysis_var st = None ->
  generate_chart mpl (FHistory h) st = (Raise e, st') ->
  process rt yf mpl api chat symbol st = (Raise unbound_analysis, st').
Proof.
  intros Hdata Hvar Hchart. rewrite (process_success _ _ _ _ Hdata).
  destruct (generate_chart_frame _ _ _ _ _ Hchart) as [_ Hvar'].
  rewrite (try_except_raise _ _ st st' e).
  - unfold text_fallback. apply io_bind_raise, read_analysis_unbound. congruence.
  - unfold chart_and_send.
    rewrite (io_bind_lift_ok _ _ _ (FHistory h)) by reflexivity.
    by apply io_bind_raise.
Qed.

Lemma handle_stock_chart_failure (message_text : pystr) (info : quote)
    (h : DataFrame) (e : exn) (st st' : state) :
  let symbol := py_upper rt (py_strip rt message_text) in
  tg_send chat (ReplyText (processing_text symbol)) = Ok () ->
  get_stock_data yf symbol = Ok (success info h) ->
  generate_chart mpl (FHistory h) (after_placeholder symbol st) = (Raise e, st') ->
  handle_stock rt yf mpl api chat (text_update message_text) st =
  tg chat (EditText (processing_error_text symbol unbound_analysis) false) st'.
Proof.
  intros symbol Hsend Hdata Hchart. unfold handle_stock.
  rewrite (io_bind_ok _ _ st _ ()) by reflexivity.
  rewrite (io_bind_lift_ok _ _ _ message_text) by reflexivity. fold symbol.
  rewrite (io_bind_ok _ _ _ (after_placeholder symbol st) ()) by (by apply tg_ok).
  rewrite (try_except_raise _ _ _ st' unbound_analysis); [done|].
  by eapply process_chart_failure.
Qed.

Lemma compose_message_header (symbol : pystr) (stock_data : stock_dict)
    (analysis : pyval) (message : pystr) :
  compose_message rt symbol stock_data analysis = Ok message ->
  exists rest, message = header rt symbol ++ rest.
Proof.
  intros H. unfold compose_message in H.
  apply bind_ok in H as (info & _ & H).
  apply bind_ok in H as (cap & _ & H).
  apply bind_ok in H as (price & _ & H).
  apply bind_ok in H as (prev & _ & H).
  apply bind_ok in H as (pe & _ & H).
  apply bind_ok in H as (cleaned & _ & H).
  apply Ok_inj in H. rewrite <- H. eauto.
Qed.

Lemma header_length (symbol : pystr) :
  len (header rt symbol) = len (py_upper rt symbol) + 19.
Proof.
  unfold header, len. rewrite !length_app.
  change (length emoji_bar_chart) with 1.
  change (length (lit " *")) with 2.
  change (length (lit " Stock Analysis*")) with 16. lia.
Qed.

(** The header survives the bound when the symbol is short enough. *)
Lemma format_stock_message_header (symbol : pystr) (stock_data : stock_dict)
    (analysis : pyval) (message : pystr) :
  format_stock_message rt symbol stock_data analysis = Ok message ->
  len (py_upper rt symbol) <= 978 ->
  exists rest, message = header rt symbol ++ rest.
Proof.
  rewrite format_stock_message_compose.
  destruct (compose_message rt symbol stock_data analysis) as [composed|] eqn:Hc;
    [|done].
  intros H Hlen. apply Ok_inj in H. subst message.
  destruct (compose_message_header _ _ _ _ Hc) as [rest ->].
  pose proof (header_length symbol) as Hh.
  unfold bound_length. destruct (1000 <? _); [|by eauto].
  unfold slice_to, len in *. rewrite take_app_ge by lia.
  rewrite <- app_assoc. eauto.
Qed.

End HandleFacts.

(** C1. When the data fetch succeeds and chart rendering raises,
    [handle_stock] delivers no text-only fallback: [analysis] is not yet
    bound when the handler of the inner [try] reads it, so the placeholder
    is edited to the generic "Error processing" notice and no message
    carries the chart-failure prefix. *)
Theorem chart_failure_delivers_no_fallback :
  get_stock_data Fixtures.yf_full (lit "AAPL")
    = Ok (success Fixtures.full_quote Fixtures.one_day) /\
  (generate_chart Fixtures.mpl_broken (FHistory Fixtures.one_day)
     (after_placeholder (lit "AAPL") Fixtures.st0)).1
    = Raise (Exn PlainException
               (lit "Failed to generate chart: Image size is too large")) /\
  Fixtures.run_chart_failure.1 = Ok () /\
  sent Fixtures.run_chart_failure.2 =
    [(EditText (processing_error_text (lit "AAPL") unbound_analysis) false, true);
     (ReplyText (processing_text (lit "AAPL")), true)] /\
  fallback_attempted Fixtures.run_chart_failure.2 = false.
Proof. repeat split; by vm_compute. Qed.

Section FallbackFacts.

Variable rt : runtime.
Variable chat : transport.

(** With [analysis] bound and the message formatted, the handler edits
    the placeholder to its prefix followed by the message. *)
Lemma text_fallback_bound (symbol : pystr) (stock_data : stock_dict)
    (chart_error : exn) (st : state) (analysis : pyval) (message : pystr) :
  analysis_var st = Some analysis ->
  format_stock_message rt symbol stock_data analysis = Ok message ->
  text_fallback rt chat symbol stock_data chart_error st =
  tg chat (EditText (fallback_prefix rt symbol ++ message) true) st.
Proof.
  intros Hvar Hmsg. unfold text_fallback.
  rewrite (io_bind_ok _ _ st st analysis) by (by apply read_analysis_bound).
  by rewrite (io_bind_lift_ok _ _ _ _ Hmsg).
Qed.

(** A failure to send the photo reaches the handler with [analysis]
    bound, and the fallback is sent. *)
Lemma process_photo_failure (yf : provider) (mpl : plotlib) (api : analysis_api)
    (symbol : pystr) (info : quote) (h : DataFrame) (buf : bytes) (a : pyval)
    (message : pystr) (e : exn) (st st1 : state) :
  get_stock_data yf symbol = Ok (success info h) ->
  generate_chart mpl (FHistory h) st = (Ok buf, st1) ->
  get_perplexity_analysis rt api (success info h) = Ok a ->
  format_stock_message rt symbol (success info h) a = Ok message ->
  tg_send chat (ReplyPhoto buf message) = Raise e ->
  process rt yf mpl api chat symbol st =
  tg chat (EditText (fallback_prefix rt symbol ++ message) true)
     {| figures := figures st1;
        sent := (ReplyPhoto buf message, false) :: sent st1;
        analysis_var := Some a |}.
Proof.
  intros Hdata Hchart Ha Hmsg Hsend.
  rewrite (process_success _ _ _ _ _ _ _ _ _ Hdata).
  erewrite try_except_raise; [by apply (text_fallback_bound _ _ _ _ a)|].
  unfold chart_and_send.
  rewrite (io_bind_lift_ok _ _ _ (FHistory h)) by reflexivity.
  rewrite (io_bind_ok _ _ _ _ _ Hchart).
  rewrite (io_bind_lift_ok _ _ _ _ Ha).
  rewrite (io_bind_ok _ _ st1 _ ()) by reflexivity.
  rewrite (io_bind_ok _ _ _ _ a) by reflexivity.
  rewrite (io_bind_lift_ok _ _ _ _ Hmsg).
  apply io_bind_raise. unfold tg. by rewrite Hsend.
Qed.

Lemma two_headers (symbol rest : pystr) :
  2 <= occurrences (fallback_prefix rt symbol ++ header rt symbol ++ rest)
                   (lit "Stock Analysis").
Proof.
  unfold fallback_prefix, header.
  change (lit " - Stock Analysis*") with (lit " - " ++ lit "Stock Analysis" ++ lit "*").
  change (lit " Stock Analysis*") with (lit " " ++ lit "Stock Analysis" ++ lit "*").
  set (a := emoji_bar_chart ++ lit " *" ++ py_upper rt symbol ++ lit " - ").
  set (b := lit "*" ++ nl ++ nl ++ chart_failed_notice ++ emoji_bar_chart
            ++ lit " *" ++ py_upper rt symbol ++ lit " ").
  set (c := lit "*" ++ rest).
  assert (Hne : lit "Stock Analysis" <> []) by done.
  pose proof (occurrences_two a (lit "Stock Analysis") b c Hne) as H.
  unfold a, b, c in H. rewrite <- !app_assoc in *. exact H.
Qed.

End FallbackFacts.

(** C10. When the chart-failure branch runs with [analysis] bound and
    [format_stock_message] returns a message, the placeholder is edited to
    the branch's prefix followed by that message, and the text holds the
    symbol's "Stock Analysis" header twice, once from the prefix and once
    from the message, so that "Stock Analysis" occurs in it at least twice.
    The symbol is one whose header fits the message: its upper-cased text
    has at most 978 characters, a bound every ticker symbol meets. *)
Theorem fallback_text_has_two_headers (rt : runtime) (chat : transport)
    (symbol : pystr) (stock_data : stock_dict) (chart_error : exn) (st : state)
    (analysis : pyval) (message : pystr) :
  analysis_var st = Some analysis ->
  format_stock_message rt symbol stock_data analysis = Ok message ->
  len (py_upper rt symbol) <= 978 ->
  text_fallback rt chat symbol stock_data chart_error st =
    tg chat (EditText (fallback_prefix rt symbol ++ message) true) st /\
  (exists rest,
     fallback_prefix rt symbol ++ message =
     (emoji_bar_chart ++ lit " *" ++ py_upper rt symbol ++ lit " - Stock Analysis*"
      ++ nl ++ nl ++ chart_failed_notice)
     ++ (emoji_bar_chart ++ lit " *" ++ py_upper rt symbol ++ lit " Stock Analysis*")
     ++ rest) /\
  2 <= occurrences (fallback_prefix rt symbol ++ message) (lit "Stock Analysis").
Proof.
  intros Hvar Hmsg Hlen.
  split; [by apply (text_fallback_bound _ _ _ _ _ _ analysis)|].
  destruct (format_stock_message_header _ _ _ _ _ Hmsg Hlen) as [rest ->].
  split; [by exists rest | apply two_headers].
Qed.

Lemma fallback_text_has_two_headers_witness :
  exists text,
    (text_fallback Fixtures.rt0 Fixtures.chat_ok (lit "AAPL")
       (success Fixtures.full_quote Fixtures.one_day)
       (Exn PlainException (lit "Timed out"))
       Fixtures.st_analysed).2
    = {| figures := [1]; sent := [(EditText text true, true)];
         analysis_var := Some (VStr (lit "fine")) |} /\
    2 <= occurrences text (lit "Stock Analysis").
Proof.
  destruct (format_stock_message Fixtures.rt0 (lit "AAPL")
              (success Fixtures.full_quote Fixtures.one_day)
              (VStr (lit "fine"))) as [message|e] eqn:E;
    [|exfalso; vm_compute in E; discriminate E].
  assert (Hlen : len (py_upper Fixtures.rt0 (lit "AAPL")) <= 978)
    by (apply Nat.leb_le; reflexivity).
  destruct (fallback_text_has_two_headers Fixtures.rt0 Fixtures.chat_ok
              (lit "AAPL") (success Fixtures.full_quote Fixtures.one_day)
              (Exn PlainException (lit "Timed out")) Fixtures.st_analysed
              (VStr (lit "fine")) message eq_refl E Hlen) as (Hrun & _ & Htwo).
  exists (fallback_prefix Fixtures.rt0 (lit "AAPL") ++ message).
  split; [by rewrite Hrun | exact Htwo].
Defined.

(** ** Scenarios *)

(** A request that succeeds: placeholder, photo with caption, placeholder
    deleted. *)
Example scenario_delivered :
  map fst (sent (handle_stock Fixtures.rt0 Fixtures.yf_full Fixtures.mpl_ok
                   (Fixtures.api_of (lit "fine")) Fixtures.chat_ok
                   (text_update (lit " aapl ")) Fixtures.st0).2)
  = [DeleteMessage;
     ReplyPhoto Fixtures.png
       (bound_length
          (header Fixtures.rt0 (lit "AAPL") ++ nl ++ nl
           ++ emoji_money_bag ++ lit " Current Price: $100.00" ++ nl
           ++ emoji_chart_up ++ lit " Previous Close: $99.00" ++ nl
           ++ emoji_chart_yen ++ lit " Market Cap: $2.50T" ++ nl
           ++ emoji_bar_chart ++ lit " P/E Ratio: 25.00" ++ nl ++ nl
           ++ emoji_memo ++ lit " *Analysis*:" ++ nl
           ++ lit "fine" ++ nl ++ nl));
     ReplyText (processing_text (lit "AAPL"))].
Proof. by vm_compute. Qed.

(** A timeout of the analysis endpoint does not fail the request: the
    caption carries the explanatory text. *)
Example scenario_analysis_timeout :
  get_perplexity_analysis Fixtures.rt0 Fixtures.api_timeout
    (success Fixtures.full_quote Fixtures.one_day)
  = Ok (VStr (lit "Unable to generate analysis: Request timed out")) /\
  exists caption,
    sent (handle_stock Fixtures.rt0 Fixtures.yf_full Fixtures.mpl_ok
            Fixtures.api_timeout Fixtures.chat_ok (text_update (lit "AAPL"))
            Fixtures.st0).2
    = [(DeleteMessage, true); (ReplyPhoto Fixtures.png caption, true);
       (ReplyText (processing_text (lit "AAPL")), true)] /\
    contains caption (lit "Request timed out") = true.
Proof.
  split; [by vm_compute|]. eexists. split; by vm_compute.
Qed.

(** No metadata for a token the resolver left alone: the placeholder is
    edited to the fetch error with the hint, and nothing is drawn. *)
Example scenario_no_data :
  (handle_stock Fixtures.rt0 (Fixtures.yf_of (Some ∅) Fixtures.one_day)
     Fixtures.mpl_ok (Fixtures.api_of (lit "fine")) Fixtures.chat_ok
     (text_update (lit "foo")) Fixtures.st0).2
  = {| figures := [];
       sent := [(EditText (fetch_error_text (lit "FOO") (no_data_hint (lit "FOO")))
                   false, true);
                (ReplyText (processing_text (lit "FOO")), true)];
       analysis_var := None |}.
Proof. by vm_compute. Qed.

(** An update without a message: line 272 raises before anything is sent,
    and the exception leaves the handler. *)
Example scenario_edited_message :
  handle_stock Fixtures.rt0 Fixtures.yf_full Fixtures.mpl_ok
    (Fixtures.api_of (lit "fine")) Fixtures.chat_ok
    {| update_message := None |} Fixtures.st0
  = (Raise (Exn AttributeError (lit "'NoneType' object has no attribute 'text'")),
     Fixtures.st0).
Proof. by vm_compute. Qed.

(** * Further properties *)

(** ** Symbol resolution and the data fetch *)

Lemma resolve_symbol_cases (token : pystr) :
  resolve_symbol token = token \/
  (token ∈ allow_list /\ resolve_symbol token = token ++ lit ".NS").
Proof.
  unfold resolve_symbol. destruct (has_exchange_suffix token); simpl; [by left|].
  case_bool_decide; [by right | by left].
Qed.

(** X1. Resolving twice is resolving once: a resolved symbol is looked up
    as it is. *)
Theorem resolve_symbol_idempotent (token : pystr) :
  resolve_symbol (resolve_symbol token) = resolve_symbol token.
Proof.
  destruct (resolve_symbol_cases token) as [Heq | [Hin Heq]]; rewrite Heq.
  - exact Heq.
  - unfold resolve_symbol, has_exchange_suffix. by rewrite endswith_app.
Qed.

Lemma usable_info (d : quote) :
  is_Some (d !! "regularMarketPrice") -> info_unusable (Some d) = false.
Proof.
  intros Hp. simpl. apply orb_false_iff. split.
  - apply bool_decide_eq_false. intros ->.
    rewrite lookup_empty in Hp. by destruct Hp.
  - by rewrite bool_decide_eq_true_2.
Qed.

(** X2. When the metadata has the live price field and the history has
    rows and columns, [get_stock_data] returns the success dict holding
    exactly the provider's metadata and history. *)
Theorem get_stock_data_success (yf : provider) (symbol : pystr) (d : quote)
    (h : DataFrame) :
  ticker_info yf (resolve_symbol symbol) = Ok (Some d) ->
  is_Some (d !! "regularMarketPrice") ->
  ticker_history yf (resolve_symbol symbol) = Ok h ->
  df_index h <> [] -> df_columns h <> [] ->
  get_stock_data yf symbol = Ok (success d h).
Proof.
  intros Hinfo Hp Hhist Hi Hc. unfold get_stock_data.
  pose proof (fetch_cases yf symbol) as H.
  rewrite Hinfo, (usable_info _ Hp), Hhist in H. rewrite H.
  assert (df_empty h = false) as -> by (by apply df_empty_false).
  done.
Qed.

Lemma get_stock_data_success_witness :
  get_stock_data Fixtures.yf_full (lit "TCS")
  = Ok (success Fixtures.full_quote Fixtures.one_day).
Proof.
  apply (get_stock_data_success Fixtures.yf_full (lit "TCS")
           Fixtures.full_quote Fixtures.one_day eq_refl).
  - by eexists.
  - reflexivity.
  - discriminate.
  - discriminate.
Defined.

(** X3. With usable metadata, a history that has no rows or no columns
    gives the failure "No historical data available". *)
Theorem get_stock_data_empty_history (yf : provider) (symbol : pystr)
    (d : quote) (h : DataFrame) :
  ticker_info yf (resolve_symbol symbol) = Ok (Some d) ->
  is_Some (d !! "regularMarketPrice") ->
  ticker_history yf (resolve_symbol symbol) = Ok h ->
  df_index h = [] \/ df_columns h = [] ->
  get_stock_data yf symbol = Ok (failure (lit "No historical data available")).
Proof.
  intros Hinfo Hp Hhist He. unfold get_stock_data.
  pose proof (fetch_cases yf symbol) as H.
  rewrite Hinfo, (usable_info _ Hp), Hhist in H. rewrite H.
  assert (df_empty h = true) as ->; [|done].
  unfold df_empty. destruct He as [-> | ->]; [done|]. by destruct (df_index h).
Qed.

Lemma get_stock_data_empty_history_witness :
  get_stock_data (Fixtures.yf_of (Some Fixtures.full_quote) Fixtures.no_rows)
    (lit "AAPL")
  = Ok (failure (lit "No historical data available")).
Proof.
  apply (get_stock_data_empty_history
           (Fixtures.yf_of (Some Fixtures.full_quote) Fixtures.no_rows)
           (lit "AAPL") Fixtures.full_quote Fixtures.no_rows eq_refl).
  - by eexists.
  - reflexivity.
  - by left.
Defined.

(** X4. When the metadata is unusable the history is never asked for: the
    result is the same whatever the history lookup would do, even raise. *)
Theorem get_stock_data_skips_history (yf yf' : provider) (symbol : pystr)
    (info : option quote) :
  ticker_info yf (resolve_symbol symbol) = Ok info ->
  ticker_info yf' (resolve_symbol symbol) = Ok info ->
  (forall d, info = Some d -> d !! "regularMarketPrice" = None) ->
  get_stock_data yf symbol = get_stock_data yf' symbol.
Proof.
  intros Hinfo Hinfo' Hun. apply info_unusable_iff in Hun.
  unfold get_stock_data.
  pose proof (fetch_cases yf symbol) as H.
  pose proof (fetch_cases yf' symbol) as H'.
  rewrite Hinfo, Hun in H. rewrite Hinfo', Hun in H'. by rewrite H, H'.
Qed.

Lemma get_stock_data_skips_history_witness :
  get_stock_data (Fixtures.yf_of None Fixtures.one_day) (lit "AAPL")
  = get_stock_data Fixtures.yf_no_info_down (lit "AAPL").
Proof.
  apply (get_stock_data_skips_history (Fixtures.yf_of None Fixtures.one_day)
           Fixtures.yf_no_info_down (lit "AAPL") None eq_refl eq_refl).
  intros d H. discriminate H.
Defined.

(** X5. The provider is asked about the resolved symbol only: two
    providers that agree there give the same result. *)
Theorem get_stock_data_asks_resolved (yf yf' : provider) (symbol : pystr) :
  ticker_info yf (resolve_symbol symbol) = ticker_info yf' (resolve_symbol symbol) ->
  ticker_history yf (resolve_symbol symbol)
    = ticker_history yf' (resolve_symbol symbol) ->
  get_stock_data yf symbol = get_stock_data yf' symbol.
Proof. apply get_stock_data_lookup. Qed.

Lemma get_stock_data_asks_resolved_witness :
  get_stock_data Fixtures.yf_full (lit "INFY")
  = get_stock_data Fixtures.yf_only_infy (lit "INFY").
Proof.
  by apply (get_stock_data_asks_resolved Fixtures.yf_full Fixtures.yf_only_infy
              (lit "INFY")).
Defined.

(** ** The chart *)

Section ChartMore.

Variable mpl : plotlib.

Lemma filter_fresh (figs : list nat) :
  filter (fun k => k <> fresh_num figs) (figs ++ [fresh_num figs]) = figs.
Proof.
  pose proof (fresh_num_not_open figs) as Hfresh.
  set (n := fresh_num figs) in *. clearbody n.
  induction figs as [|k figs IH]; simpl.
  - rewrite filter_cons_False by (intros H; by apply H). done.
  - rewrite filter_cons_True by (intros ->; apply Hfresh; left).
    f_equal. apply IH. intros Hin. apply Hfresh. by right.
Qed.

Lemma drawing_state_figures (st : state) :
  figures (drawing_state st).2
  = registry_after (figures st) ++ [(drawing_state st).1] /\
  (drawing_state st).1 = fresh_num (registry_after (figures st)).
Proof.
  unfold drawing_state, plt_clf, plt_figure.
  destruct (figures st) as [|k figs] eqn:E; simpl; rewrite ?E; done.
Qed.

(** [generate_chart], step by step: the first failing call decides the
    error, and the state is the one reached by then. *)
Lemma generate_chart_steps (history : field) (st : state) :
  generate_chart mpl history st =
  let wrap e := Exn PlainException (lit "Failed to generate chart: " ++ exn_str e) in
  match mpl_use mpl with
  | Raise e => (Raise (wrap e), st)
  | Ok _ =>
      match mpl_add_subplot mpl with
      | Raise e => (Raise (wrap e), (drawing_state st).2)
      | Ok _ =>
          match index_and_close history with
          | Raise e => (Raise (wrap e), (drawing_state st).2)
          | Ok xy =>
              match mpl_render mpl xy.1 xy.2 with
              | Raise e => (Raise (wrap e), (drawing_state st).2)
              | Ok buf =>
                  (Ok buf, {| figures := registry_after (figures st);
                              sent := sent st;
                              analysis_var := analysis_var st |})
              end
          end
      end
  end.
Proof.
  unfold generate_chart, try_except, drawing_state, throw.
  unfold mbind, io_bind, lift, plt_clf, plt_figure, plt_close, mret, io_ret.
  destruct (mpl_use mpl) as [[]|e]; [|done].
  destruct st as [figs log var]. cbn [figures sent analysis_var].
  assert (Hclose : forall l : list nat,
            filter (fun k => k <> fresh_num l) (l ++ [fresh_num l]) = l)
    by apply filter_fresh.
  destruct figs as [|k figs]; cbn [figures sent analysis_var registry_after fst snd];
    destruct (mpl_add_subplot mpl) as [[]|e]; try done;
    destruct (index_and_close history) as [xy|e]; try done;
    destruct (mpl_render mpl xy.1 xy.2) as [buf|e]; try done;
    cbn [figures sent analysis_var]; by rewrite Hclose.
Qed.

Lemma registry_after_prefix (figs : list nat) :
  figs `prefix_of` registry_after figs.
Proof. destruct figs; [apply prefix_nil | done]. Qed.

Lemma drawing_state_prefix (st : state) :
  figures st `prefix_of` figures (drawing_state st).2.
Proof.
  destruct (drawing_state_figures st) as [-> _].
  etransitivity; [apply registry_after_prefix | by apply prefix_app_r].
Qed.

End ChartMore.

(** X6. A successful [generate_chart] returns the encoded image and leaves
    pyplot's registry as it found it; only when no figure was open does one
    stay behind, the figure [plt.clf()] makes.  The chat log and the locals
    are untouched. *)
Theorem generate_chart_success_registry (mpl : plotlib) (h : DataFrame)
    (close : list spec_float) (buf : bytes) (st : state) :
  mpl_use mpl = Ok () -> mpl_add_subplot mpl = Ok () ->
  df_getitem h "Close" = Ok close ->
  mpl_render mpl (df_index h) close = Ok buf ->
  generate_chart mpl (FHistory h) st =
    (Ok buf, {| figures := match figures st with [] => [1] | _ :: _ => figures st end;
                sent := sent st; analysis_var := analysis_var st |}).
Proof.
  intros Huse Hsub Hclose Hrender. rewrite generate_chart_steps.
  cbv zeta. rewrite Huse, Hsub. unfold index_and_close. rewrite Hclose.
  cbn [mbind result_bind fst snd]. by rewrite Hrender.
Qed.

Lemma generate_chart_success_registry_witness :
  generate_chart Fixtures.mpl_ok (FHistory Fixtures.one_day)
    {| figures := [3; 7]; sent := []; analysis_var := None |}
  = (Ok Fixtures.png, {| figures := [3; 7]; sent := []; analysis_var := None |}).
Proof.
  exact (generate_chart_success_registry Fixtures.mpl_ok Fixtures.one_day
           [S754_zero false] Fixtures.png
           {| figures := [3; 7]; sent := []; analysis_var := None |}
           eq_refl eq_refl eq_refl eq_refl).
Defined.

(** X7. A history without a [Close] column makes [generate_chart] raise
    "Failed to generate chart: 'Close'", the text of the KeyError. *)
Theorem generate_chart_missing_close (mpl : plotlib) (h : DataFrame) (st : state) :
  mpl_use mpl = Ok () -> mpl_add_subplot mpl = Ok () ->
  columns_lookup "Close" (df_columns h) = None ->
  (generate_chart mpl (FHistory h) st).1 =
    Raise (Exn PlainException (lit "Failed to generate chart: 'Close'")).
Proof.
  intros Huse Hsub Hclose. rewrite generate_chart_steps.
  cbv zeta. rewrite Huse, Hsub. unfold index_and_close, df_getitem.
  by rewrite Hclose.
Qed.

Lemma generate_chart_missing_close_witness :
  (generate_chart Fixtures.mpl_ok (FHistory Fixtures.no_close) Fixtures.st0).1 =
    Raise (Exn PlainException (lit "Failed to generate chart: 'Close'")).
Proof.
  exact (generate_chart_missing_close Fixtures.mpl_ok Fixtures.no_close
           Fixtures.st0 eq_refl eq_refl eq_refl).
Defined.

(** X8. Whatever [generate_chart] is given, it returns the image only when
    every step went through, and an exception it raises is a plain
    Exception whose text is "Failed to generate chart: " followed by the
    text of the cause, where the cause is the exception of the first step
    that failed: selecting the backend, adding the axes, reading the index
    and the [Close] column of the history, or drawing and encoding. *)
Theorem generate_chart_wraps_errors (mpl : plotlib) (history : field) (st : state) :
  match (generate_chart mpl history st).1 with
  | Ok buf =>
      exists xy,
        mpl_use mpl = Ok () /\ mpl_add_subplot mpl = Ok () /\
        index_and_close history = Ok xy /\
        mpl_render mpl xy.1 xy.2 = Ok buf
  | Raise e' =>
      exists cause,
        e' = Exn PlainException (lit "Failed to generate chart: " ++ exn_str cause) /\
        (mpl_use mpl = Raise cause \/
         (mpl_use mpl = Ok () /\ mpl_add_subplot mpl = Raise cause) \/
         (mpl_use mpl = Ok () /\ mpl_add_subplot mpl = Ok () /\
          index_and_close history = Raise cause) \/
         (exists xy,
            mpl_use mpl = Ok () /\ mpl_add_subplot mpl = Ok () /\
            index_and_close history = Ok xy /\
            mpl_render mpl xy.1 xy.2 = Raise cause))
  end.
Proof.
  rewrite generate_chart_steps. cbv zeta.
  destruct (mpl_use mpl) as [[]|e]; [|exists e; split; [done|by left]].
  destruct (mpl_add_subplot mpl) as [[]|e];
    [|exists e; split; [done|right; by left]].
  destruct (index_and_close history) as [xy|e] eqn:Hxy;
    [|exists e; split; [done|right; right; by left]].
  destruct (mpl_render mpl xy.1 xy.2) as [buf|e] eqn:Hrender.
  - by exists xy.
  - exists e. split; [done|]. right; right; right. by exists xy.
Qed.

(** X9. [generate_chart] never touches the chat log or the locals, and
    never closes a figure that was open before the call. *)
Theorem generate_chart_keeps_state (mpl : plotlib) (history : field) (st : state) :
  sent (generate_chart mpl history st).2 = sent st /\
  analysis_var (generate_chart mpl history st).2 = analysis_var st /\
  figures st `prefix_of` figures (generate_chart mpl history st).2.
Proof.
  rewrite generate_chart_steps. cbv zeta.
  destruct (drawing_state_open st) as (_ & Hsent & Hvar).
  pose proof (drawing_state_prefix st) as Hpre.
  destruct (mpl_use mpl) as [[]|e]; [|done].
  destruct (mpl_add_subplot mpl) as [[]|e]; [|done].
  destruct (index_and_close history) as [xy|e]; [|done].
  destruct (mpl_render mpl xy.1 xy.2) as [buf|e]; [|done].
  simpl. split; [done|]. split; [done|]. apply registry_after_prefix.
Qed.

(** ** The analysis client *)

Section AnalysisMore.

Variable rt : runtime.
Variable api : analysis_api.

Lemma format_comma_number (v : pyval) :
  (exists s, format_comma rt v = Ok s) <-> is_number v = true.
Proof.
  destruct v; split; intros H; try done;
    try (by destruct H); by eexists.
Qed.

(** The prompt is built exactly when both grouped fields are numbers. *)
Lemma build_prompt_ok_iff (stock_data : stock_dict) (info : quote) :
  stock_data !! "info" = Some (FInfo info) ->
  (exists prompt, build_prompt rt stock_data = Ok prompt) <->
  is_number (get_or_na info "marketCap") = true /\
  is_number (get_or_na info "volume") = true.
Proof.
  intros Hinfo. unfold build_prompt, get_info. rewrite Hinfo.
  change (mbind ?k (Ok info)) with (k info). cbv beta zeta.
  rewrite <- !format_comma_number. split.
  - intros [prompt H].
    apply bind_ok in H as (cap & Hcap & H).
    apply bind_ok in H as (vol & Hvol & _). by eauto.
  - intros [[cap Hcap] [vol Hvol]]. rewrite Hcap.
    change (mbind ?k (Ok cap)) with (k cap). cbv beta. rewrite Hvol.
    by eexists.
Qed.

Lemma get_perplexity_analysis_ok_iff (stock_data : stock_dict) :
  (exists r, get_perplexity_analysis rt api stock_data = Ok r) <->
  (exists prompt, build_prompt rt stock_data = Ok prompt).
Proof.
  unfold get_perplexity_analysis. split.
  - intros [r H]. apply bind_ok in H as (prompt & Hp & _). by eauto.
  - intros [prompt ->]. change (mbind ?k (Ok prompt)) with (k prompt). cbv beta.
    destruct (request_analysis api prompt); by eauto.
Qed.

End AnalysisMore.

(** X10. [get_perplexity_analysis] returns, whatever the endpoint does,
    exactly when the market capitalization and the volume of the quote are
    both numbers; in every other case (absent, None, a string) it raises. *)
Theorem get_perplexity_analysis_returns_iff (rt : runtime) (api : analysis_api)
    (stock_data : stock_dict) (info : quote) :
  stock_data !! "info" = Some (FInfo info) ->
  (exists r, get_perplexity_analysis rt api stock_data = Ok r) <->
  is_number (get_or_na info "marketCap") = true /\
  is_number (get_or_na info "volume") = true.
Proof.
  intros Hinfo. rewrite get_perplexity_analysis_ok_iff.
  by apply build_prompt_ok_iff.
Qed.

Lemma get_perplexity_analysis_returns_iff_witness :
  (exists r, get_perplexity_analysis Fixtures.rt0 Fixtures.api_crash
               (success Fixtures.full_quote Fixtures.one_day) = Ok r) /\
  ~ (exists r, get_perplexity_analysis Fixtures.rt0 (Fixtures.api_of (lit "fine"))
                 (success Fixtures.price_only Fixtures.one_day) = Ok r).
Proof.
  split.
  - apply (get_perplexity_analysis_returns_iff Fixtures.rt0 Fixtures.api_crash
             (success Fixtures.full_quote Fixtures.one_day) Fixtures.full_quote
             eq_refl).
    split; reflexivity.
  - intros H.
    apply (get_perplexity_analysis_returns_iff Fixtures.rt0 _
             (success Fixtures.price_only Fixtures.one_day) Fixtures.price_only
             eq_refl) in H.
    destruct H as [H _]. discriminate H.
Defined.

(** X11. Once the prompt is built, the failures of the request come back
    as texts: a timeout as "Request timed out", another transport failure
    as "Network error - " and its cause, a status other than 200 as
    "Error: " and the body of the response, and any other exception of
    the call as its own text. *)
Theorem analysis_error_texts (rt : runtime) (api : analysis_api)
    (stock_data : stock_dict) (prompt : pystr) :
  build_prompt rt stock_data = Ok prompt ->
  (forall cause, http_post api prompt = Raise (Exn Timeout cause) ->
     get_perplexity_analysis rt api stock_data
     = Ok (VStr (lit "Unable to generate analysis: Request timed out"))) /\
  (forall cause, http_post api prompt = Raise (Exn RequestException cause) ->
     get_perplexity_analysis rt api stock_data
     = Ok (VStr (lit "Unable to generate analysis: Network error - " ++ cause))) /\
  (forall e, http_post api prompt = Raise e -> is_request_exception e = false ->
     get_perplexity_analysis rt api stock_data
     = Ok (VStr (lit "Unable to generate analysis: " ++ exn_str e))) /\
  (forall resp, http_post api prompt = Ok resp -> status_code resp <> 200%Z ->
     get_perplexity_analysis rt api stock_data
     = Ok (VStr (lit "Unable to generate analysis. Error: " ++ text resp))).
Proof.
  intros Hp. split; [|split; [|split]].
  - intros cause H. rewrite (get_perplexity_analysis_returns _ _ _ _ Hp).
    by rewrite (request_analysis_post_raises _ _ _ H).
  - intros cause H. rewrite (get_perplexity_analysis_returns _ _ _ _ Hp).
    by rewrite (request_analysis_post_raises _ _ _ H).
  - intros e H Hcls. rewrite (get_perplexity_analysis_returns _ _ _ _ Hp).
    rewrite (request_analysis_post_raises _ _ _ H).
    unfold analysis_fallback.
    assert (is_timeout e = false) as ->.
    { destruct e as [[] ?]; simpl in *; done. }
    by rewrite Hcls.
  - intros resp H Hs. rewrite (get_perplexity_analysis_returns _ _ _ _ Hp).
    by rewrite (request_analysis_bad_status _ _ _ H Hs).
Qed.

Lemma analysis_error_texts_witness :
  let sd := success Fixtures.full_quote Fixtures.one_day in
  get_perplexity_analysis Fixtures.rt0 Fixtures.api_timeout sd
    = Ok (VStr (lit "Unable to generate analysis: Request timed out")) /\
  get_perplexity_analysis Fixtures.rt0 Fixtures.api_network sd
    = Ok (VStr (lit "Unable to generate analysis: Network error - connection reset")) /\
  get_perplexity_analysis Fixtures.rt0 Fixtures.api_crash sd
    = Ok (VStr (lit "Unable to generate analysis: bad header")) /\
  get_perplexity_analysis Fixtures.rt0 Fixtures.api_unauthorized sd
    = Ok (VStr (lit "Unable to generate analysis. Error: unauthorized")).
Proof.
  intros sd.
  destruct (build_prompt Fixtures.rt0 sd) as [prompt|e] eqn:Hp;
    [|exfalso; vm_compute in Hp; discriminate Hp].
  split; [|split; [|split]].
  - exact (proj1 (analysis_error_texts _ Fixtures.api_timeout _ _ Hp)
             (lit "read timed out") eq_refl).
  - exact (proj1 (proj2 (analysis_error_texts _ Fixtures.api_network _ _ Hp))
             (lit "connection reset") eq_refl).
  - exact (proj1 (proj2 (proj2 (analysis_error_texts _ Fixtures.api_crash _ _ Hp)))
             (Exn ValueError (lit "bad header")) eq_refl eq_refl).
  - refine (proj2 (proj2 (proj2 (analysis_error_texts _ Fixtures.api_unauthorized _ _ Hp)))
             _ eq_refl _).
    discriminate.
Defined.

Section ReplyFacts.

Variable api : analysis_api.

(** The request on a response with status 200 and a JSON object. *)
Lemma request_analysis_object (prompt : pystr) (resp : response)
    (d : list (pystr * pyval)) :
  http_post api prompt = Ok resp -> status_code resp = 200%Z ->
  json resp = Ok (VDict d) ->
  request_analysis api prompt =
  match items_lookup (lit "choices") d with
  | None => Ok (VStr (lit "Unable to generate analysis: Unexpected API response format"))
  | Some choices =>
      n ← py_len choices;
      if 0 <? n then
        first ← py_getitem_0 choices;
        message ← py_getitem_str first (lit "message");
        py_getitem_str message (lit "content")
      else Ok (VStr (lit "Unable to generate analysis: Unexpected API response format"))
  end.
Proof.
  intros Hpost Hs Hj.
  assert (Hget : py_getitem_str (VDict d) (lit "choices") =
                 match items_lookup (lit "choices") d with
                 | Some x => Ok x
                 | None => Raise (Exn KeyError (quoted (lit "choices")))
                 end) by reflexivity.
  assert (Hin : py_contains (lit "choices") (VDict d) =
                Ok (bool_decide (is_Some (items_lookup (lit "choices") d))))
    by reflexivity.
  unfold request_analysis. rewrite Hpost. cbn [mbind result_bind].
  rewrite Hs, Hj. change (negb (200 =? 200)%Z) with false.
  cbn [mbind result_bind]. rewrite Hin, Hget. clear Hin Hget.
  destruct (items_lookup (lit "choices") d) as [choices|] eqn:Hc.
  - rewrite bool_decide_eq_true_2 by eauto. cbn [mbind result_bind].
    destruct (py_len choices) as [n|e]; cbn [mbind result_bind]; [|done].
    by destruct (0 <? n).
  - rewrite bool_decide_eq_false_2 by (by intros [? ?]). done.
Qed.

End ReplyFacts.

(** X12. From a response with status 200 whose JSON object has a non-empty
    list under "choices", whose first element has an object under
    "message" with a value under "content", [get_perplexity_analysis]
    returns that value. *)
Theorem analysis_returns_content (rt : runtime) (api : analysis_api)
    (stock_data : stock_dict) (prompt : pystr) (resp : response)
    (d m mm : list (pystr * pyval)) (others : list pyval) (content : pyval) :
  build_prompt rt stock_data = Ok prompt ->
  http_post api prompt = Ok resp -> status_code resp = 200%Z ->
  json resp = Ok (VDict d) ->
  items_lookup (lit "choices") d = Some (VList (VDict m :: others)) ->
  items_lookup (lit "message") m = Some (VDict mm) ->
  items_lookup (lit "content") mm = Some content ->
  get_perplexity_analysis rt api stock_data = Ok content.
Proof.
  intros Hp Hpost Hs Hj Hc Hm Hcontent.
  rewrite (get_perplexity_analysis_returns _ _ _ _ Hp).
  rewrite (request_analysis_object _ _ _ _ Hpost Hs Hj), Hc.
  cbn [mbind result_bind py_len py_getitem_0 py_getitem_str length Nat.ltb Nat.leb].
  rewrite Hm. cbn [mbind result_bind py_getitem_str]. by rewrite Hcontent.
Qed.

Lemma analysis_returns_content_witness :
  get_perplexity_analysis Fixtures.rt0 (Fixtures.api_of (lit "Strong buy."))
    (success Fixtures.full_quote Fixtures.one_day)
  = Ok (VStr (lit "Strong buy.")).
Proof.
  destruct (build_prompt Fixtures.rt0 (success Fixtures.full_quote Fixtures.one_day))
    as [prompt|e] eqn:Hp; [|exfalso; vm_compute in Hp; discriminate Hp].
  exact (analysis_returns_content Fixtures.rt0 (Fixtures.api_of (lit "Strong buy."))
           _ prompt _ _ _ _ [] _ Hp eq_refl eq_refl eq_refl eq_refl eq_refl eq_refl).
Defined.

(** X13. A response with status 200 whose JSON object has no "choices", or
    has an empty list, string or object there, gives the text "Unexpected
    API response format". *)
Theorem analysis_unexpected_format (rt : runtime) (api : analysis_api)
    (stock_data : stock_dict) (prompt : pystr) (resp : response)
    (d : list (pystr * pyval)) :
  build_prompt rt stock_data = Ok prompt ->
  http_post api prompt = Ok resp -> status_code resp = 200%Z ->
  json resp = Ok (VDict d) ->
  (items_lookup (lit "choices") d = None \/
   exists choices, items_lookup (lit "choices") d = Some choices /\
                   py_len choices = Ok 0) ->
  get_perplexity_analysis rt api stock_data
  = Ok (VStr (lit "Unable to generate analysis: Unexpected API response format")).
Proof.
  intros Hp Hpost Hs Hj Hc.
  rewrite (get_perplexity_analysis_returns _ _ _ _ Hp).
  rewrite (request_analysis_object _ _ _ _ Hpost Hs Hj).
  destruct Hc as [-> | (choices & -> & Hlen)]; [done|].
  by rewrite Hlen.
Qed.

Lemma analysis_unexpected_format_witness :
  let sd := success Fixtures.full_quote Fixtures.one_day in
  get_perplexity_analysis Fixtures.rt0
    (Fixtures.api_json (VDict [(lit "error", VStr (lit "quota"))])) sd
  = Ok (VStr (lit "Unable to generate analysis: Unexpected API response format")) /\
  get_perplexity_analysis Fixtures.rt0
    (Fixtures.api_json (VDict [(lit "choices", VList [])])) sd
  = Ok (VStr (lit "Unable to generate analysis: Unexpected API response format")).
Proof.
  intros sd.
  destruct (build_prompt Fixtures.rt0 sd) as [prompt|e] eqn:Hp;
    [|exfalso; vm_compute in Hp; discriminate Hp].
  split.
  - refine (analysis_unexpected_format Fixtures.rt0
              (Fixtures.api_json (VDict [(lit "error", VStr (lit "quota"))]))
              sd prompt _ _ Hp eq_refl eq_refl eq_refl _).
    by left.
  - refine (analysis_unexpected_format Fixtures.rt0
              (Fixtures.api_json (VDict [(lit "choices", VList [])]))
              sd prompt _ _ Hp eq_refl eq_refl eq_refl _).
    right. by exists (VList []).
Defined.

(** X14. A first choice that is an object without "message" does not make
    [get_perplexity_analysis] raise: the KeyError comes back as the text
    "Unable to generate analysis: 'message'". *)
Theorem analysis_missing_message (rt : runtime) (api : analysis_api)
    (stock_data : stock_dict) (prompt : pystr) (resp : response)
    (d m : list (pystr * pyval)) (others : list pyval) :
  build_prompt rt stock_data = Ok prompt ->
  http_post api prompt = Ok resp -> status_code resp = 200%Z ->
  json resp = Ok (VDict d) ->
  items_lookup (lit "choices") d = Some (VList (VDict m :: others)) ->
  items_lookup (lit "message") m = None ->
  get_perplexity_analysis rt api stock_data
  = Ok (VStr (lit "Unable to generate analysis: 'message'")).
Proof.
  intros Hp Hpost Hs Hj Hc Hm.
  rewrite (get_perplexity_analysis_returns _ _ _ _ Hp).
  rewrite (request_analysis_object _ _ _ _ Hpost Hs Hj), Hc.
  cbn [mbind result_bind py_len py_getitem_0 py_getitem_str length Nat.ltb Nat.leb].
  by rewrite Hm.
Qed.

Lemma analysis_missing_message_witness :
  get_perplexity_analysis Fixtures.rt0
    (Fixtures.api_json (VDict [(lit "choices", VList [VDict [(lit "text", VNone)]])]))
    (success Fixtures.full_quote Fixtures.one_day)
  = Ok (VStr (lit "Unable to generate analysis: 'message'")).
Proof.
  destruct (build_prompt Fixtures.rt0 (success Fixtures.full_quote Fixtures.one_day))
    as [prompt|e] eqn:Hp; [|exfalso; vm_compute in Hp; discriminate Hp].
  exact (analysis_missing_message Fixtures.rt0
           (Fixtures.api_json (VDict [(lit "choices", VList [VDict [(lit "text", VNone)]])]))
           _ prompt _ _ _ [] Hp eq_refl eq_refl eq_refl eq_refl eq_refl).
Defined.

(** ** The formatter *)

Section ReplaceFacts.

(** Deleting a single character is filtering it out. *)
Lemma replace_char (c : N) (s : list N) :
  replace s [c] [] = filter (fun x => x <> c) s.
Proof.
  unfold replace, pystr in *. induction s as [|x s IH]; [done|].
  cbn [replace_from startswith length Nat.sub].
  destruct (N.eqb_spec c x) as [<- | Hne].
  - cbn [andb app]. rewrite filter_cons_False by (intros H; by apply H).
    exact IH.
  - cbn [andb]. rewrite filter_cons_True by congruence. by rewrite IH.
Qed.

(** Deleting the pairs of a character first changes nothing once the
    character itself is deleted. *)
Lemma replace_pair_then_char (c : N) (s : list N) :
  filter (fun x => x <> c) (replace s [c; c] []) = filter (fun x => x <> c) s.
Proof.
  unfold replace, pystr in *.
  assert (H : forall n (s : list N), length s <= n ->
            filter (fun x => x <> c) (replace_from [c; c] [] 0 s)
            = filter (fun x => x <> c) s); [|by apply (H (length s))].
  clear s. induction n as [|n IH]; intros s Hn.
  - destruct s; [done | simpl in Hn; lia].
  - destruct s as [|x s]; [done|]. simpl in Hn.
    cbn [replace_from startswith length Nat.sub].
    destruct s as [|y s].
    + by rewrite andb_false_r.
    + simpl in Hn. cbn [startswith].
      destruct (N.eqb_spec c x) as [<- | Hx]; cbn [andb].
      * destruct (N.eqb_spec c y) as [<- | Hy]; cbn [andb app].
        -- cbn [replace_from].
           rewrite !filter_cons_False by (intros H; by apply H). apply IH. lia.
        -- rewrite !(filter_cons_False _ c) by (intros H; by apply H).
           apply (IH (y :: s)). simpl. lia.
      * rewrite !(filter_cons_True _ x) by congruence. f_equal.
        apply (IH (y :: s)). simpl. lia.
Qed.

Lemma clean_str (a : pystr) : clean (VStr a) = Ok (strip_markup a).
Proof.
  unfold clean, strip_markup, pystr in *. cbv zeta. f_equal.
  change (lit "**") with [42%N; 42%N]. change (lit "*") with [42%N].
  change (lit "`") with [96%N]. change (lit "_") with [95%N].
  change (lit "#") with [35%N].
  rewrite !replace_char, replace_pair_then_char, !list_filter_filter.
  apply list_filter_iff. intros x. unfold markup.
  rewrite !not_elem_of_cons. split; intros H; [|tauto].
  repeat split; try tauto. apply not_elem_of_nil.
Qed.

Lemma strip_markup_clean (a : pystr) (c : N) :
  c ∈ markup -> c ∉ strip_markup a.
Proof.
  unfold strip_markup, pystr in *.
  intros Hc Hin. apply list_elem_of_filter in Hin as [Hn _]. done.
Qed.

End ReplaceFacts.

Section FormatMore.

Variable rt : runtime.

(** The composition on a quote: its fields formatted in the order of the
    source, then the analysis cleaned. *)
Lemma compose_message_fields (symbol : pystr) (stock_data : stock_dict)
    (analysis : pyval) (info : quote) :
  stock_data !! "info" = Some (FInfo info) ->
  compose_message rt symbol stock_data analysis =
  (market_cap ← format_market_cap rt (get_or_na info "marketCap");
   current_price ← format_price (get_or_na info "currentPrice");
   prev_close ← format_price (get_or_na info "previousClose");
   pe_ratio ← format_ratio (get_or_na info "trailingPE");
   clean_analysis ← clean analysis;
   Ok (header rt symbol ++ nl ++ nl
       ++ emoji_money_bag ++ lit " Current Price: " ++ current_price ++ nl
       ++ emoji_chart_up ++ lit " Previous Close: " ++ prev_close ++ nl
       ++ emoji_chart_yen ++ lit " Market Cap: " ++ market_cap ++ nl
       ++ emoji_bar_chart ++ lit " P/E Ratio: " ++ pe_ratio ++ nl ++ nl
       ++ emoji_memo ++ lit " *Analysis*:" ++ nl
       ++ clean_analysis ++ nl ++ nl)).
Proof. intros H. unfold compose_message, get_info. by rewrite H. Qed.

End FormatMore.

(** X15. The analysis reaches the message with every asterisk, backtick,
    underscore and hash removed and nothing else changed: the composed
    message ends with that text and two newlines, and none of the four
    characters occurs in it. *)
Theorem analysis_is_stripped (rt : runtime) (symbol : pystr)
    (stock_data : stock_dict) (a message : pystr) :
  compose_message rt symbol stock_data (VStr a) = Ok message ->
  (exists before,
     message = before ++ filter (fun c => c ∉ markup) a ++ nl ++ nl) /\
  (forall c, c ∈ markup -> c ∉ filter (fun c => c ∉ markup) a).
Proof.
  intros H. split; [|intros c; apply strip_markup_clean].
  unfold compose_message in H.
  apply bind_ok in H as (info & _ & H).
  apply bind_ok in H as (cap & _ & H).
  apply bind_ok in H as (price & _ & H).
  apply bind_ok in H as (prev & _ & H).
  apply bind_ok in H as (pe & _ & H).
  apply bind_ok in H as (cleaned & Hclean & H).
  rewrite clean_str in Hclean. apply Ok_inj in Hclean. subst cleaned.
  apply Ok_inj in H. rewrite <- H.
  eexists. rewrite !app_assoc. reflexivity.
Qed.

Lemma analysis_is_stripped_witness :
  exists message before,
    compose_message Fixtures.rt0 (lit "AAPL")
      (success Fixtures.full_quote Fixtures.one_day)
      (VStr (lit "## **Buy** `now`, _really_ * ***")) = Ok message /\
    message = before ++ lit " Buy now, really  " ++ nl ++ nl.
Proof.
  destruct (compose_message Fixtures.rt0 (lit "AAPL")
              (success Fixtures.full_quote Fixtures.one_day)
              (VStr (lit "## **Buy** `now`, _really_ * ***")))
    as [message|e] eqn:E; [|exfalso; vm_compute in E; discriminate E].
  destruct (analysis_is_stripped _ _ _ _ _ E) as [[before Hm] _].
  exists message, before. split; [reflexivity | exact Hm].
Defined.

(** X16. A quote without market capitalization, whose current price,
    previous close and P/E ratio are absent or not numbers, is formatted
    without error, with N/A in each of the four slots. *)
Theorem format_unavailable_fields (rt : runtime) (symbol : pystr)
    (stock_data : stock_dict) (info : quote) (a : pystr) :
  stock_data !! "info" = Some (FInfo info) ->
  info !! "marketCap" = None ->
  is_number (get_or_na info "currentPrice") = false ->
  is_number (get_or_na info "previousClose") = false ->
  is_number (get_or_na info "trailingPE") = false ->
  format_stock_message rt symbol stock_data (VStr a) =
  Ok (bound_length
        (header rt symbol ++ nl ++ nl
         ++ emoji_money_bag ++ lit " Current Price: N/A" ++ nl
         ++ emoji_chart_up ++ lit " Previous Close: N/A" ++ nl
         ++ emoji_chart_yen ++ lit " Market Cap: N/A" ++ nl
         ++ emoji_bar_chart ++ lit " P/E Ratio: N/A" ++ nl ++ nl
         ++ emoji_memo ++ lit " *Analysis*:" ++ nl
         ++ filter (fun c => c ∉ markup) a ++ nl ++ nl)).
Proof.
  intros Hinfo Hcap Hprice Hprev Hpe.
  rewrite format_stock_message_compose, (compose_message_fields _ _ _ _ _ Hinfo).
  unfold format_price, format_ratio. rewrite Hprice, Hprev, Hpe, clean_str.
  unfold get_or_na at 1. rewrite Hcap. reflexivity.
Qed.

Lemma format_unavailable_fields_witness :
  format_stock_message Fixtures.rt0 (lit "AAPL")
    (success Fixtures.odd_quote Fixtures.one_day) (VStr (lit "fine")) =
  Ok (header Fixtures.rt0 (lit "AAPL") ++ nl ++ nl
      ++ emoji_money_bag ++ lit " Current Price: N/A" ++ nl
      ++ emoji_chart_up ++ lit " Previous Close: N/A" ++ nl
      ++ emoji_chart_yen ++ lit " Market Cap: N/A" ++ nl
      ++ emoji_bar_chart ++ lit " P/E Ratio: N/A" ++ nl ++ nl
      ++ emoji_memo ++ lit " *Analysis*:" ++ nl
      ++ lit "fine" ++ nl ++ nl).
Proof.
  exact (format_unavailable_fields Fixtures.rt0 (lit "AAPL")
           (success Fixtures.odd_quote Fixtures.one_day) Fixtures.odd_quote
           (lit "fine") eq_refl eq_refl eq_refl eq_refl eq_refl).
Defined.

(** X17. [format_stock_message] returns no message for an analysis that is
    not a string (the content of a reply can be null or a number): it
    raises. *)
Theorem format_rejects_non_string (rt : runtime) (symbol : pystr)
    (stock_data : stock_dict) (analysis : pyval) :
  is_str analysis = false ->
  exists e, format_stock_message rt symbol stock_data analysis = Raise e.
Proof.
  intros Hstr. rewrite format_stock_message_compose.
  assert (exists e, compose_message rt symbol stock_data analysis = Raise e)
    as [e ->]; [|by exists e].
  unfold compose_message.
  destruct (get_info stock_data) as [info|e];
    cbn [mbind result_bind]; [|by exists e].
  destruct (format_market_cap rt _) as [cap|e];
    cbn [mbind result_bind]; [|by exists e].
  destruct (format_price (get_or_na info "currentPrice")) as [price|e];
    cbn [mbind result_bind]; [|by exists e].
  destruct (format_price (get_or_na info "previousClose")) as [prev|e];
    cbn [mbind result_bind]; [|by exists e].
  destruct (format_ratio _) as [pe|e];
    cbn [mbind result_bind]; [|by exists e].
  destruct analysis; try done; by eexists.
Qed.

Lemma format_rejects_non_string_witness :
  format_stock_message Fixtures.rt0 (lit "AAPL")
    (success Fixtures.full_quote Fixtures.one_day) VNone
  = Raise (Exn AttributeError (lit "'NoneType' object has no attribute 'replace'")).
Proof.
  destruct (format_rejects_non_string Fixtures.rt0 (lit "AAPL")
              (success Fixtures.full_quote Fixtures.one_day) VNone eq_refl)
    as [e He].
  rewrite He. f_equal. vm_compute in He. by injection He as <-.
Defined.

Section GroupingFacts.

Lemma filter_rev (l : list N) : filter (fun c : N => c <> 44%N) (rev l) = rev (filter (fun c : N => c <> 44%N) l).
Proof.
  induction l as [|x l IH]; [done|]. simpl. rewrite filter_app, IH.
  destruct (decide (x <> 44%N)) as [Hx|Hx].
  - by rewrite !filter_cons_True, filter_nil by done.
  - by rewrite !filter_cons_False, filter_nil, app_nil_r by done.
Qed.

(** Grouping only inserts commas. *)
Lemma group3_filter (l : list N) :
  filter (fun c : N => c <> 44%N) (group3 l : list N) = filter (fun c : N => c <> 44%N) l.
Proof.
  assert (H : forall n (l : list N), length l <= n ->
            filter (fun c : N => c <> 44%N) (group3 l : list N) = filter (fun c : N => c <> 44%N) l);
    [|by apply (H (length l))].
  clear l. induction n as [|n IH]; intros l Hn.
  - destruct l; [done | simpl in Hn; lia].
  - destruct l as [|a [|b [|c [|d r]]]]; try done.
    change (group3 (a :: b :: c :: d :: r) : list N)
      with (a :: b :: c :: 44%N :: (group3 (d :: r) : list N)).
    simpl in Hn.
    rewrite !(filter_cons _ a), !(filter_cons _ b), !(filter_cons _ c).
    rewrite (filter_cons_False _ 44%N) by (intros H; by apply H).
    rewrite (IH (d :: r)) by (simpl; lia). done.
Qed.

Lemma digits_no_comma (l : list N) :
  Forall is_digit l -> filter (fun c : N => c <> 44%N) l = l.
Proof.
  induction 1 as [|x l Hx _ IH]; [done|].
  rewrite filter_cons_True by (unfold is_digit in Hx; lia). by rewrite IH.
Qed.

Lemma format_comma_int_digits (z : Z) :
  filter (fun c : N => c <> 44%N) (format_comma_int z) = str_of_Z z.
Proof.
  unfold format_comma_int.
  change (filter (fun c : N => c <> 44%N)
            (((if (z <? 0)%Z then lit "-" else []) : list N)
             ++ rev (group3 (rev (str_of_N (Z.abs_N z))) : list N))
          = str_of_Z z).
  rewrite filter_app, filter_rev, group3_filter.
  rewrite <- filter_rev, rev_involutive.
  rewrite (digits_no_comma (str_of_N (Z.abs_N z))) by apply str_of_N_digits.
  destruct z as [|p|p]; done.
Qed.

End GroupingFacts.

(** X18. The grouped form of an integer field of the prompt is the
    decimal numeral of the integer with commas added: taking the commas
    out gives back [str] of the value. *)
Theorem format_comma_round_trip (rt : runtime) (z : Z) :
  exists grouped,
    format_comma rt (VInt z) = Ok grouped /\
    filter (fun c => c <> 44%N) grouped = str_of_Z z.
Proof.
  exists (format_comma_int z). split; [done|]. apply format_comma_int_digits.
Qed.

Lemma contains_app_l (a s sub : pystr) :
  contains s sub = true -> contains (a ++ s) sub = true.
Proof.
  intros H. apply contains_slice in H as (x & y & ->).
  rewrite app_assoc. apply contains_app.
Qed.

Lemma contains_mid (a sub p q rest : pystr) :
  p ++ q = a ++ sub -> contains (p ++ q ++ rest) sub = true.
Proof.
  intros H. rewrite app_assoc, H, <- app_assoc. apply contains_app.
Qed.

(** X19. In the prompt every field that is written with [str] and is
    absent from the quote appears as N/A after its label. *)
Theorem prompt_marks_absent_fields (rt : runtime) (stock_data : stock_dict)
    (info : quote) (prompt : pystr) :
  stock_data !! "info" = Some (FInfo info) ->
  build_prompt rt stock_data = Ok prompt ->
  (info !! "currentPrice" = None ->
     contains prompt (lit "Current Price: $N/A") = true) /\
  (info !! "trailingPE" = None ->
     contains prompt (lit "P/E Ratio: N/A") = true) /\
  (info !! "fiftyTwoWeekHigh" = None ->
     contains prompt (lit "52-Week High: $N/A") = true) /\
  (info !! "fiftyTwoWeekLow" = None ->
     contains prompt (lit "52-Week Low: $N/A") = true).
Proof.
  intros Hinfo H. unfold build_prompt, get_info in H. rewrite Hinfo in H.
  apply bind_ok in H as (info' & Hi & H). apply Ok_inj in Hi. subst info'.
  apply bind_ok in H as (cap & _ & H).
  apply bind_ok in H as (vol & _ & H).
  apply Ok_inj in H. subst prompt.
  split; [|split; [|split]]; intros Habs; unfold get_or_na at 1 2 3 4;
    rewrite Habs; cbn [default py_str].
  - do 2 apply contains_app_l.
    by apply (contains_mid (lit "    ")).
  - do 8 apply contains_app_l.
    by apply (contains_mid (lit "    ")).
  - do 11 apply contains_app_l.
    by apply (contains_mid (lit "    ")).
  - do 14 apply contains_app_l.
    by apply (contains_mid (lit "    ")).
Qed.

Lemma prompt_marks_absent_fields_witness :
  exists prompt,
    build_prompt Fixtures.rt0 (success Fixtures.cap_and_volume Fixtures.one_day)
      = Ok prompt /\
    contains prompt (lit "Current Price: $N/A") = true /\
    contains prompt (lit "P/E Ratio: N/A") = true /\
    contains prompt (lit "52-Week High: $N/A") = true /\
    contains prompt (lit "52-Week Low: $N/A") = true.
Proof.
  destruct (build_prompt Fixtures.rt0
              (success Fixtures.cap_and_volume Fixtures.one_day))
    as [prompt|e] eqn:Hp; [|exfalso; vm_compute in Hp; discriminate Hp].
  destruct (prompt_marks_absent_fields Fixtures.rt0
              (success Fixtures.cap_and_volume Fixtures.one_day)
              Fixtures.cap_and_volume prompt eq_refl Hp) as (H1 & H2 & H3 & H4).
  exists prompt. split; [reflexivity|].
  split; [exact (H1 eq_refl)|]. split; [exact (H2 eq_refl)|].
  split; [exact (H3 eq_refl) | exact (H4 eq_refl)].
Defined.

(** ** Two decimals *)

Section RoundingFacts.

Local Open Scope Z_scope.

Lemma round_half_even_nearest (n d : Z) :
  0 <= n -> 0 < d ->
  2 * Z.abs (round_half_even n d * d - n) <= d.
Proof.
  intros Hn Hd. unfold round_half_even.
  pose proof (Z.div_mod n d ltac:(lia)) as Hdm.
  pose proof (Z.mod_pos_bound n d Hd) as Hr.
  destruct (Z.compare_spec (2 * (n mod d)) d) as [He | Hl | Hg];
    [destruct (Z.even (n / d))|..]; nia.
Qed.

End RoundingFacts.

(** X20. The amount [format(f, '.2f')] writes for a finite float is the
    hundredth nearest to the float's exact value [m * 2^e]: the written
    hundredths [h] differ from [100 * m * 2^e] by at most one half. *)
Theorem format_2f_nearest (s : bool) (m : positive) (e : Z) :
  exists h : Z,
    format_2f (S754_finite s m e) = fixed2 s h /\
    (2 * Z.abs (h * 2 ^ Z.max 0 (- e) - Z.pos m * 2 ^ Z.max 0 e * 100)
     <= 2 ^ Z.max 0 (- e))%Z.
Proof.
  exists (hundredths m e). split; [done|]. unfold hundredths.
  destruct (0 <=? e)%Z eqn:He.
  - apply Z.leb_le in He.
    rewrite (Z.max_l 0 (- e)), (Z.max_r 0 e) by lia.
    change (2 ^ 0)%Z with 1%Z. lia.
  - apply Z.leb_gt in He.
    rewrite (Z.max_r 0 (- e)), (Z.max_l 0 e) by lia.
    change (2 ^ 0)%Z with 1%Z. rewrite Z.mul_1_r.
    apply round_half_even_nearest; [lia|]. apply Z.pow_pos_nonneg; lia.
Qed.

(** ** The orchestrator *)

Section HandleMore.

Variable rt : runtime.
Variable yf : provider.
Variable mpl : plotlib.
Variable api : analysis_api.
Variable chat : transport.

Lemma tg_raise (r : tg_request) (e : exn) (st : state) :
  tg_send chat r = Raise e ->
  tg chat r st = (Raise e, {| figures := figures st; sent := (r, false) :: sent st;
                              analysis_var := analysis_var st |}).
Proof. intros H. unfold tg. by rewrite H. Qed.

Lemma tg_result (r : tg_request) (st : state) : (tg chat r st).1 = tg_send chat r.
Proof. reflexivity. Qed.

(** [handle_stock] after the placeholder has been sent. *)
Lemma handle_stock_after_placeholder (message_text : pystr) (st : state) :
  let symbol := py_upper rt (py_strip rt message_text) in
  tg_send chat (ReplyText (processing_text symbol)) = Ok () ->
  handle_stock rt yf mpl api chat (text_update message_text) st =
  try_except (process rt yf mpl api chat symbol)
    (fun e => tg chat (EditText (processing_error_text symbol e) false))
    (after_placeholder symbol st).
Proof.
  intros symbol Hsend. unfold handle_stock.
  rewrite (io_bind_ok _ _ st _ ()) by reflexivity.
  rewrite (io_bind_lift_ok _ _ _ message_text) by reflexivity. fold symbol.
  by rewrite (io_bind_ok _ _ _ (after_placeholder symbol st) ()) by (by apply tg_ok).
Qed.

(** The failed fetch: [process] edits the placeholder and stops. *)
Lemma process_fetch_failure (symbol msg : pystr) (st : state) :
  get_stock_data yf symbol = Ok (failure msg) ->
  process rt yf mpl api chat symbol st =
  tg chat (EditText (fetch_error_text symbol msg) false) st.
Proof.
  intros Hdata. unfold process.
  rewrite (io_bind_lift_ok _ _ _ _ Hdata).
  by rewrite (io_bind_lift_ok _ _ _ false).
Qed.

(** The inner [try] up to the photo. *)
Lemma chart_and_send_steps (symbol : pystr) (info : quote) (h : DataFrame)
    (buf : bytes) (a : pyval) (message : pystr) (st st1 : state) :
  generate_chart mpl (FHistory h) st = (Ok buf, st1) ->
  get_perplexity_analysis rt api (success info h) = Ok a ->
  format_stock_message rt symbol (success info h) a = Ok message ->
  chart_and_send rt mpl api chat symbol (success info h) st =
  (_ ← tg chat (ReplyPhoto buf message); tg chat DeleteMessage)
    {| figures := figures st1; sent := sent st1; analysis_var := Some a |}.
Proof.
  intros Hchart Ha Hmsg. unfold chart_and_send.
  rewrite (io_bind_lift_ok _ _ _ (FHistory h)) by reflexivity.
  rewrite (io_bind_ok _ _ _ _ _ Hchart).
  rewrite (io_bind_lift_ok _ _ _ _ Ha).
  rewrite (io_bind_ok _ _ st1 _ ()) by reflexivity.
  rewrite (io_bind_ok _ _ _ _ a) by reflexivity.
  by rewrite (io_bind_lift_ok _ _ _ _ Hmsg).
Qed.

End HandleMore.

(** X21. An exception leaves [handle_stock] in three ways only.  For an
    update that carries no message (an edited message, a channel post),
    reading [update.message.text] raises [AttributeError] before either
    [try] block is entered, and the call always ends with it.  For an update
    with a message, an exception escapes only through the chat transport:
    when the placeholder cannot be sent, or when the final "Error
    processing" edit fails.  Every other failure, of the provider, the
    chart, the analysis or the formatter, ends in a returned call. *)
Theorem handle_stock_escapes (rt : runtime) (yf : provider) (mpl : plotlib)
    (api : analysis_api) (chat : transport) (update : Update) (st : state) :
  match update_message update with
  | None =>
      (handle_stock rt yf mpl api chat update st).1 =
      Raise (Exn AttributeError (lit "'NoneType' object has no attribute 'text'"))
  | Some message_text =>
      match (handle_stock rt yf mpl api chat update st).1 with
      | Ok _ => True
      | Raise e =>
          let symbol := py_upper rt (py_strip rt message_text) in
          tg_send chat (ReplyText (processing_text symbol)) = Raise e \/
          exists cause,
            tg_send chat (EditText (processing_error_text symbol cause) false) =
            Raise e
      end
  end.
Proof.
  destruct update as [[message_text|]]; cbn [update_message].
  - change {| update_message := Some message_text |} with (text_update message_text).
    set (symbol := py_upper rt (py_strip rt message_text)).
    destruct (tg_send chat (ReplyText (processing_text symbol))) as [[]|e] eqn:Hsend.
    + rewrite (handle_stock_after_placeholder _ _ _ _ _ _ _ Hsend).
      fold symbol. unfold try_except.
      destruct (process rt yf mpl api chat symbol _) as [[u|cause] st'];
        [done|].
      rewrite tg_result.
      destruct (tg_send chat (EditText _ false)) as [[]|e] eqn:Hedit; [done|].
      right. by exists cause.
    + unfold handle_stock.
      rewrite (io_bind_ok _ _ st _ ()) by reflexivity.
      rewrite (io_bind_lift_ok _ _ _ message_text) by reflexivity. fold symbol.
      erewrite io_bind_raise by (by apply tg_raise).
      by left.
  - unfold handle_stock.
    rewrite (io_bind_ok _ _ st _ ()) by reflexivity.
    by erewrite io_bind_lift_raise by reflexivity.
Qed.

(** X22. When the fetch fails with a message, the placeholder is edited to
    "Error: Unable to fetch data for <symbol>. Error: <message>" and the
    request ends there: no figure is made and [analysis] stays unbound. *)
Theorem handle_stock_fetch_failure (rt : runtime) (yf : provider) (mpl : plotlib)
    (api : analysis_api) (chat : transport) (message_text msg : pystr)
    (st : state) :
  let symbol := py_upper rt (py_strip rt message_text) in
  tg_send chat (ReplyText (processing_text symbol)) = Ok () ->
  get_stock_data yf symbol = Ok (failure msg) ->
  tg_send chat (EditText (fetch_error_text symbol msg) false) = Ok () ->
  handle_stock rt yf mpl api chat (text_update message_text) st =
  (Ok (), {| figures := figures st;
             sent := (EditText (fetch_error_text symbol msg) false, true)
                     :: (ReplyText (processing_text symbol), true) :: sent st;
             analysis_var := None |}).
Proof.
  intros symbol Hsend Hdata Hedit.
  rewrite (handle_stock_after_placeholder _ _ _ _ _ _ _ Hsend). fold symbol.
  apply try_except_ok.
  rewrite (process_fetch_failure _ _ _ _ _ _ _ _ Hdata).
  by rewrite (tg_ok _ _ _ Hedit).
Qed.

Lemma handle_stock_fetch_failure_witness :
  handle_stock Fixtures.rt0 Fixtures.yf_down Fixtures.mpl_ok
    (Fixtures.api_of (lit "fine")) Fixtures.chat_ok (text_update (lit "aapl"))
    Fixtures.st0 =
  (Ok (), {| figures := [];
             sent := [(EditText (fetch_error_text (lit "AAPL")
                                   (lit "connection refused")) false, true);
                      (ReplyText (processing_text (lit "AAPL")), true)];
             analysis_var := None |}).
Proof.
  exact (handle_stock_fetch_failure Fixtures.rt0 Fixtures.yf_down Fixtures.mpl_ok
           (Fixtures.api_of (lit "fine")) Fixtures.chat_ok (lit "aapl")
           (lit "connection refused") Fixtures.st0 eq_refl eq_refl eq_refl).
Defined.

(** X23. When every stage succeeds the user gets the photo with the
    formatted message as caption and the placeholder is deleted: the calls
    on the transport are the placeholder, the photo and the deletion, in
    this order. *)
Theorem handle_stock_delivers (rt : runtime) (yf : provider) (mpl : plotlib)
    (api : analysis_api) (chat : transport) (message_text : pystr)
    (info : quote) (h : DataFrame) (buf : bytes) (a : pyval) (message : pystr)
    (st st1 : state) :
  let symbol := py_upper rt (py_strip rt message_text) in
  tg_send chat (ReplyText (processing_text symbol)) = Ok () ->
  get_stock_data yf symbol = Ok (success info h) ->
  generate_chart mpl (FHistory h) (after_placeholder symbol st) = (Ok buf, st1) ->
  get_perplexity_analysis rt api (success info h) = Ok a ->
  format_stock_message rt symbol (success info h) a = Ok message ->
  tg_send chat (ReplyPhoto buf message) = Ok () ->
  tg_send chat DeleteMessage = Ok () ->
  handle_stock rt yf mpl api chat (text_update message_text) st =
  (Ok (), {| figures := figures st1;
             sent := (DeleteMessage, true) :: (ReplyPhoto buf message, true)
                     :: (ReplyText (processing_text symbol), true) :: sent st;
             analysis_var := Some a |}).
Proof.
  intros symbol Hsend Hdata Hchart Ha Hmsg Hphoto Hdel.
  rewrite (handle_stock_after_placeholder _ _ _ _ _ _ _ Hsend). fold symbol.
  destruct (generate_chart_frame _ _ _ _ _ Hchart) as [Hlog _].
  apply try_except_ok.
  rewrite (process_success _ _ _ _ _ _ _ _ _ Hdata).
  apply try_except_ok.
  rewrite (chart_and_send_steps _ _ _ _ _ _ _ _ _ _ _ _ Hchart Ha Hmsg).
  rewrite (io_bind_ok _ _ _ _ () (tg_ok _ _ _ Hphoto)).
  rewrite (tg_ok _ _ _ Hdel). simpl. by rewrite Hlog.
Qed.

Lemma handle_stock_delivers_witness :
  handle_stock Fixtures.rt0 Fixtures.yf_full Fixtures.mpl_ok
    (Fixtures.api_of (lit "fine")) Fixtures.chat_ok (text_update (lit "aapl"))
    Fixtures.st0 =
  (Ok (), {| figures := [1];
             sent := [(DeleteMessage, true);
                      (ReplyPhoto Fixtures.png Fixtures.caption_aapl, true);
                      (ReplyText (processing_text (lit "AAPL")), true)];
             analysis_var := Some (VStr (lit "fine")) |}).
Proof.
  exact (handle_stock_delivers Fixtures.rt0 Fixtures.yf_full Fixtures.mpl_ok
           (Fixtures.api_of (lit "fine")) Fixtures.chat_ok (lit "aapl")
           Fixtures.full_quote Fixtures.one_day Fixtures.png (VStr (lit "fine"))
           Fixtures.caption_aapl Fixtures.st0
           {| figures := [1];
              sent := [(ReplyText (processing_text (lit "AAPL")), true)];
              analysis_var := None |}
           eq_refl eq_refl eq_refl eq_refl eq_refl eq_refl eq_refl).
Defined.

(** X24. When the photo is delivered but deleting the placeholder fails,
    the handler of the inner [try] still runs: the user has the photo and
    the placeholder is edited to the "Chart generation failed" text with
    the same message. *)
Theorem handle_stock_delete_failure (rt : runtime) (yf : provider) (mpl : plotlib)
    (api : analysis_api) (chat : transport) (message_text : pystr)
    (info : quote) (h : DataFrame) (buf : bytes) (a : pyval) (message : pystr)
    (e : exn) (st st1 : state) :
  let symbol := py_upper rt (py_strip rt message_text) in
  tg_send chat (ReplyText (processing_text symbol)) = Ok () ->
  get_stock_data yf symbol = Ok (success info h) ->
  generate_chart mpl (FHistory h) (after_placeholder symbol st) = (Ok buf, st1) ->
  get_perplexity_analysis rt api (success info h) = Ok a ->
  format_stock_message rt symbol (success info h) a = Ok message ->
  tg_send chat (ReplyPhoto buf message) = Ok () ->
  tg_send chat DeleteMessage = Raise e ->
  tg_send chat (EditText (fallback_prefix rt symbol ++ message) true) = Ok () ->
  handle_stock rt yf mpl api chat (text_update message_text) st =
  (Ok (), {| figures := figures st1;
             sent := (EditText (fallback_prefix rt symbol ++ message) true, true)
                     :: (DeleteMessage, false) :: (ReplyPhoto buf message, true)
                     :: (ReplyText (processing_text symbol), true) :: sent st;
             analysis_var := Some a |}).
Proof.
  intros symbol Hsend Hdata Hchart Ha Hmsg Hphoto Hdel Hedit.
  rewrite (handle_stock_after_placeholder _ _ _ _ _ _ _ Hsend). fold symbol.
  destruct (generate_chart_frame _ _ _ _ _ Hchart) as [Hlog _].
  apply try_except_ok.
  rewrite (process_success _ _ _ _ _ _ _ _ _ Hdata).
  erewrite try_except_raise.
  2: { rewrite (chart_and_send_steps _ _ _ _ _ _ _ _ _ _ _ _ Hchart Ha Hmsg).
       rewrite (io_bind_ok _ _ _ _ () (tg_ok _ _ _ Hphoto)).
       by apply tg_raise. }
  rewrite (text_fallback_bound _ _ _ _ _ _ a message) by done.
  rewrite (tg_ok _ _ _ Hedit). simpl. by rewrite Hlog.
Qed.

Lemma handle_stock_delete_failure_witness :
  handle_stock Fixtures.rt0 Fixtures.yf_full Fixtures.mpl_ok
    (Fixtures.api_of (lit "fine")) Fixtures.chat_no_delete
    (text_update (lit "aapl")) Fixtures.st0 =
  (Ok (), {| figures := [1];
             sent := [(EditText (fallback_prefix Fixtures.rt0 (lit "AAPL")
                                 ++ Fixtures.caption_aapl) true, true);
                      (DeleteMessage, false);
                      (ReplyPhoto Fixtures.png Fixtures.caption_aapl, true);
                      (ReplyText (processing_text (lit "AAPL")), true)];
             analysis_var := Some (VStr (lit "fine")) |}).
Proof.
  exact (handle_stock_delete_failure Fixtures.rt0 Fixtures.yf_full Fixtures.mpl_ok
           (Fixtures.api_of (lit "fine")) Fixtures.chat_no_delete (lit "aapl")
           Fixtures.full_quote Fixtures.one_day Fixtures.png (VStr (lit "fine"))
           Fixtures.caption_aapl
           (Exn PlainException (lit "Message to delete not found")) Fixtures.st0
           {| figures := [1];
              sent := [(ReplyText (processing_text (lit "AAPL")), true)];
              analysis_var := None |}
           eq_refl eq_refl eq_refl eq_refl eq_refl eq_refl eq_refl eq_refl).
Defined.

(** X25. When sending the photo fails, the placeholder is edited to the
    "Chart generation failed" text followed by the very message that was
    to be the caption. *)
Theorem handle_stock_photo_failure (rt : runtime) (yf : provider) (mpl : plotlib)
    (api : analysis_api) (chat : transport) (message_text : pystr)
    (info : quote) (h : DataFrame) (buf : bytes) (a : pyval) (message : pystr)
    (e : exn) (st st1 : state) :
  let symbol := py_upper rt (py_strip rt message_text) in
  tg_send chat (ReplyText (processing_text symbol)) = Ok () ->
  get_stock_data yf symbol = Ok (success info h) ->
  generate_chart mpl (FHistory h) (after_placeholder symbol st) = (Ok buf, st1) ->
  get_perplexity_analysis rt api (success info h) = Ok a ->
  format_stock_message rt symbol (success info h) a = Ok message ->
  tg_send chat (ReplyPhoto buf message) = Raise e ->
  tg_send chat (EditText (fallback_prefix rt symbol ++ message) true) = Ok () ->
  handle_stock rt yf mpl api chat (text_update message_text) st =
  (Ok (), {| figures := figures st1;
             sent := (EditText (fallback_prefix rt symbol ++ message) true, true)
                     :: (ReplyPhoto buf message, false)
                     :: (ReplyText (processing_text symbol), true) :: sent st;
             analysis_var := Some a |}).
Proof.
  intros symbol Hsend Hdata Hchart Ha Hmsg Hphoto Hedit.
  rewrite (handle_stock_after_placeholder _ _ _ _ _ _ _ Hsend). fold symbol.
  destruct (generate_chart_frame _ _ _ _ _ Hchart) as [Hlog _].
  apply try_except_ok.
  rewrite (process_photo_failure _ _ _ _ _ _ _ _ _ _ _ _ _ _ Hdata Hchart Ha Hmsg Hphoto).
  rewrite (tg_ok _ _ _ Hedit). simpl. by rewrite Hlog.
Qed.

Lemma handle_stock_photo_failure_witness :
  handle_stock Fixtures.rt0 Fixtures.yf_full Fixtures.mpl_ok
    (Fixtures.api_of (lit "fine")) Fixtures.chat_no_photo
    (text_update (lit "aapl")) Fixtures.st0 =
  (Ok (), {| figures := [1];
             sent := [(EditText (fallback_prefix Fixtures.rt0 (lit "AAPL")
                                 ++ Fixtures.caption_aapl) true, true);
                      (ReplyPhoto Fixtures.png Fixtures.caption_aapl, false);
                      (ReplyText (processing_text (lit "AAPL")), true)];
             analysis_var := Some (VStr (lit "fine")) |}).
Proof.
  exact (handle_stock_photo_failure Fixtures.rt0 Fixtures.yf_full Fixtures.mpl_ok
           (Fixtures.api_of (lit "fine")) Fixtures.chat_no_photo (lit "aapl")
           Fixtures.full_quote Fixtures.one_day Fixtures.png (VStr (lit "fine"))
           Fixtures.caption_aapl (Exn PlainException (lit "Timed out")) Fixtures.st0
           {| figures := [1];
              sent := [(ReplyText (processing_text (lit "AAPL")), true)];
              analysis_var := None |}
           eq_refl eq_refl eq_refl eq_refl eq_refl eq_refl eq_refl).
Defined.

Section LogFacts.

Variable P : tg_request -> Prop.

Lemma adds_weaken {A} (c : io A) (Q Q' : A -> Prop) :
  (forall a, Q a -> Q' a) -> adds P c Q -> adds P c Q'.
Proof. intros HQ Hc st. destruct (Hc st) as [Hlog Hres]. split; [done|eauto]. Qed.

Lemma adds_bind {A B} (c : io A) (k : A -> io B) (Q : A -> Prop) (R : B -> Prop) :
  adds P c Q -> (forall a, Q a -> adds P (k a) R) -> adds P (c ≫= k) R.
Proof.
  intros Hc Hk st. unfold mbind, io_bind.
  destruct (Hc st) as [(n1 & H1 & HP1) Hres].
  destruct (c st) as [[a|e] st']; simpl in *.
  - destruct (Hk a (Hres a eq_refl) st') as [(n2 & H2 & HP2) Hres'].
    split; [|done]. exists (n2 ++ n1).
    rewrite H2, H1, app_assoc. split; [done|]. by apply Forall_app.
  - split; [by exists n1 | done].
Qed.

Lemma adds_try {A} (body : io A) (handler : exn -> io A) (Q : A -> Prop) :
  adds P body Q -> (forall e, adds P (handler e) Q) ->
  adds P (try_except body handler) Q.
Proof.
  intros Hb Hh st. unfold try_except.
  destruct (Hb st) as [(n1 & H1 & HP1) Hres].
  destruct (body st) as [[a|e] st']; simpl in *.
  - split; [by exists n1 | done].
  - destruct (Hh e st') as [(n2 & H2 & HP2) Hres'].
    split; [|done]. exists (n2 ++ n1).
    rewrite H2, H1, app_assoc. split; [done|]. by apply Forall_app.
Qed.

Lemma adds_silent {A} (c : io A) (Q : A -> Prop) :
  (forall st, sent (c st).2 = sent st) ->
  (forall st a, (c st).1 = Ok a -> Q a) -> adds P c Q.
Proof. intros Hs HQ st. split; [by exists [] | apply HQ]. Qed.

Lemma adds_lift {A} (r : result A) : adds P (lift r) (fun a => r = Ok a).
Proof. by apply adds_silent. Qed.

Lemma adds_tg (chat : transport) (r : tg_request) :
  P r -> adds P (tg chat r) (fun _ => True).
Proof.
  intros HP st. split; [|done]. exists [(r, match tg_send chat r with
                                               | Ok _ => true
                                               | Raise _ => false
                                               end)].
  split; [done|]. by constructor.
Qed.

Lemma adds_generate_chart (mpl : plotlib) (history : field) :
  adds P (generate_chart mpl history) (fun _ => True).
Proof.
  apply adds_silent; [|done]. intros st.
  destruct (generate_chart mpl history st) as [r st'] eqn:H.
  by destruct (generate_chart_frame _ _ _ _ _ H).
Qed.

Lemma adds_read : adds P read_analysis (fun _ => True).
Proof.
  apply adds_silent; [|done]. intros st. unfold read_analysis.
  by destruct (analysis_var st).
Qed.

Lemma adds_assign (v : pyval) : adds P (assign_analysis v) (fun _ => True).
Proof. by apply adds_silent. Qed.

End LogFacts.

Section ProcessLog.

Variable rt : runtime.
Variable yf : provider.
Variable mpl : plotlib.
Variable api : analysis_api.
Variable chat : transport.

Lemma format_stock_message_bounded (symbol : pystr) (stock_data : stock_dict)
    (analysis : pyval) (message : pystr) :
  format_stock_message rt symbol stock_data analysis = Ok message ->
  len message <= 1000.
Proof.
  rewrite format_stock_message_compose.
  destruct (compose_message rt symbol stock_data analysis); [|done].
  intros H. apply Ok_inj in H. subst message. apply bound_length_le.
Qed.

(** Every call [process] makes keeps captions within the bound. *)
Lemma process_adds (symbol : pystr) :
  adds caption_bounded (process rt yf mpl api chat symbol) (fun _ => True).
Proof.
  unfold process.
  eapply adds_bind; [apply adds_lift|]. intros stock_data _.
  eapply adds_bind; [apply adds_lift|]. intros ok _.
  destruct ok; cbn [negb]; [|by apply adds_tg].
  apply adds_try.
  - unfold chart_and_send.
    eapply adds_bind; [apply adds_lift|]. intros history _.
    eapply adds_bind; [apply adds_generate_chart|]. intros buf _.
    eapply adds_bind; [apply adds_lift|]. intros a _.
    eapply adds_bind; [apply adds_assign|]. intros _ _.
    eapply adds_bind; [apply adds_read|]. intros analysis _.
    eapply adds_bind; [apply adds_lift|]. intros message Hmsg.
    eapply adds_bind; [apply adds_tg|].
    + exact (format_stock_message_bounded _ _ _ _ Hmsg).
    + intros _ _. by apply adds_tg.
  - intros e. unfold text_fallback.
    eapply adds_bind; [apply adds_read|]. intros analysis _.
    eapply adds_bind; [apply adds_lift|]. intros message _.
    by apply adds_tg.
Qed.

Lemma handle_stock_adds (update : Update) :
  adds caption_bounded (handle_stock rt yf mpl api chat update) (fun _ => True).
Proof.
  unfold handle_stock.
  eapply adds_bind; [by apply (adds_silent _ _ (fun _ => True))|]. intros _ _.
  eapply adds_bind; [apply adds_lift|]. intros message_text _.
  eapply adds_bind; [by apply adds_tg|]. intros _ _.
  apply adds_try; [apply process_adds|]. intros e. by apply adds_tg.
Qed.

End ProcessLog.

(** X26. For an update with a message, the first call [handle_stock] makes
    on the chat transport is the "Processing <symbol>... Please wait."
    placeholder, before any fetch; whatever follows is added after it, and
    earlier entries of the log are kept.  For an update without a message
    nothing at all is sent: the call ends with the [AttributeError] of
    [update.message.text] and the log is as it was. *)
Theorem handle_stock_placeholder_first (rt : runtime) (yf : provider)
    (mpl : plotlib) (api : analysis_api) (chat : transport)
    (update : Update) (st : state) :
  match update_message update with
  | Some message_text =>
      exists later delivered,
        sent (handle_stock rt yf mpl api chat update st).2 =
        later ++ (ReplyText (processing_text
                               (py_upper rt (py_strip rt message_text))),
                  delivered) :: sent st
  | None =>
      sent (handle_stock rt yf mpl api chat update st).2 = sent st /\
      (handle_stock rt yf mpl api chat update st).1 =
      Raise (Exn AttributeError (lit "'NoneType' object has no attribute 'text'"))
  end.
Proof.
  destruct update as [[message_text|]]; cbn [update_message].
  - change {| update_message := Some message_text |} with (text_update message_text).
    set (symbol := py_upper rt (py_strip rt message_text)).
    destruct (tg_send chat (ReplyText (processing_text symbol))) as [[]|e] eqn:Hsend.
    + rewrite (handle_stock_after_placeholder _ _ _ _ _ _ _ Hsend). fold symbol.
      assert (H : adds caption_bounded
                    (try_except (process rt yf mpl api chat symbol)
                       (fun e => tg chat (EditText (processing_error_text symbol e) false)))
                    (fun _ => True)).
      { apply adds_try; [apply process_adds|]. intros e. by apply adds_tg. }
      destruct (H (after_placeholder symbol st)) as [(later & Hlater & _) _].
      exists later, true. exact Hlater.
    + unfold handle_stock.
      rewrite (io_bind_ok _ _ st _ ()) by reflexivity.
      rewrite (io_bind_lift_ok _ _ _ message_text) by reflexivity. fold symbol.
      erewrite io_bind_raise by (by apply tg_raise).
      by exists [], false.
  - unfold handle_stock.
    rewrite (io_bind_ok _ _ st _ ()) by reflexivity.
    by erewrite io_bind_lift_raise by reflexivity.
Qed.

(** X27. Whatever the provider, the plotting library, the endpoint and the
    transport do, a photo that [handle_stock] sends has a caption of at
    most 1000 characters. *)
Theorem handle_stock_caption_bound (rt : runtime) (yf : provider)
    (mpl : plotlib) (api : analysis_api) (chat : transport)
    (update : Update) (st : state) :
  exists calls,
    sent (handle_stock rt yf mpl api chat update st).2 = calls ++ sent st /\
    Forall (fun entry =>
              match entry.1 with
              | ReplyPhoto _ caption => len caption <= 1000
              | _ => True
              end) calls.
Proof.
  destruct (handle_stock_adds rt yf mpl api chat update st)
    as [(calls & Hcalls & Hbound) _].
  exists calls. split; [done|]. exact Hbound.
Qed.
